(** * PDF annotator backend: access control and data consistency

    A shallow embedding of the Express/Mongoose backend:

    - [src/unnamed/part_000]      the PDF (document) model,
    - [src/models/Annotation.js]  the annotation model,
    - [src/middleware/upload.js]  the multer upload middleware,
    - [src/routes/pdfs.js]        the pdf and annotation route handlers.

    Route handlers are functions in a small state-and-exception monad over
    the database collections and the upload directory.  JavaScript values
    that reach a handler through a JSON body are [JValue]s; [undefined] is
    [None].

    A [string] holds the UTF-8 encoding of the JavaScript string it stands
    for, which is well formed.  An ObjectId is written as the database
    prints it, by its 24 lower-case hexadecimal digits. *)

From stdpp Require Import gmap strings list fin_maps sorting.
From Stdlib Require Import Ascii QArith.

#[local] Set Warnings "-register-all".
#[local] Open Scope string_scope.
#[local] Open Scope Z_scope.
#[local] Open Scope list_scope.

(** ** JavaScript values *)

(** Numbers are rationals: every number the handlers inspect is either a
    small integer or a literal of the schema such as 0.5.  Counters and
    sizes that are integers in every run are kept in [Z]; they stay far
    below 2^53, where JavaScript's doubles are exact. *)
Inductive JValue :=
  | JNull
  | JBool (b : bool)
  | JNum (q : Q)
  | JStr (s : string)
  | JArr (l : list JValue)
  | JObj (o : gmap string JValue).

(** [!!v]: the values JavaScript treats as true in a condition. *)
Definition truthy (v : JValue) : bool :=
  match v with
  | JNull => false
  | JBool b => b
  | JNum q => negb (Qeq_bool q 0)
  | JStr s => negb (String.eqb s "")
  | JArr _ | JObj _ => true
  end.

(** [a || b] on values: [a] when it is truthy, otherwise [b]. *)
Definition js_or (a : option JValue) (b : JValue) : JValue :=
  match a with
  | Some v => if truthy v then v else b
  | None => b
  end.

(** [s || d] on strings that may be [undefined]. *)
Definition str_or (a : option string) (d : string) : string :=
  match a with
  | Some s => if String.eqb s "" then d else s
  | None => d
  end.

(** ** Strings: [trim], [length] and [parseInt] *)

(** The value of a byte. *)
Definition byte_of (c : ascii) : Z := Z.of_nat (nat_of_ascii c).

(** White space as [String.prototype.trim] and [parseInt] see it: tab,
    line feed, vertical tab, form feed, carriage return, space, and beyond
    ASCII the no-break space U+00A0, U+1680, U+2000 to U+200A, the line
    and paragraph separators U+2028 and U+2029, U+202F, U+205F, U+3000 and
    the byte order mark U+FEFF. *)
Definition ascii_ws (b : Z) : bool :=
  ((9 <=? b) && (b <=? 13)) || (b =? 32).

(** The third byte of the white space characters that are encoded with
    the first two bytes [E2 80]. *)
Definition general_punctuation_ws (b : Z) : bool :=
  ((128 <=? b) && (b <=? 138)) || (b =? 168) || (b =? 169) || (b =? 175).

(** The number of bytes of the white space character a string starts
    with, [0] when it starts with none. *)
Definition ws_width (s : list ascii) : nat :=
  match byte_of <$> take 3 s with
  | b :: rest =>
      if ascii_ws b then 1%nat
      else
        match b, rest with
        | 194, 160 :: _ => 2%nat
        | 225, 154 :: 128 :: _ => 3%nat
        | 226, 128 :: d :: _ => if general_punctuation_ws d then 3%nat else 0%nat
        | 226, 129 :: 159 :: _ => 3%nat
        | 227, 128 :: 128 :: _ => 3%nat
        | 239, 187 :: 191 :: _ => 3%nat
        | _, _ => 0%nat
        end
  | [] => 0%nat
  end.

(** The same for the end of a string, on its bytes in reverse. *)
Definition ws_width_end (r : list ascii) : nat :=
  match byte_of <$> take 3 r with
  | b :: rest =>
      if ascii_ws b then 1%nat
      else
        match b, rest with
        | 160, 194 :: _ => 2%nat
        | 128, 154 :: 225 :: _ => 3%nat
        | d, 128 :: 226 :: _ => if general_punctuation_ws d then 3%nat else 0%nat
        | 159, 129 :: 226 :: _ => 3%nat
        | 128, 128 :: 227 :: _ => 3%nat
        | 191, 187 :: 239 :: _ => 3%nat
        | _, _ => 0%nat
        end
  | [] => 0%nat
  end.

(** Strip white space characters, at most [fuel] of them. *)
Fixpoint strip (width : list ascii → nat) (fuel : nat) (s : list ascii)
    : list ascii :=
  match fuel with
  | O => s
  | S fuel =>
      match width s with
      | O => s
      | w => strip width fuel (drop w s)
      end
  end.

Definition skip_ws (s : list ascii) : list ascii :=
  strip ws_width (length s) s.

Definition skip_ws_end (s : list ascii) : list ascii :=
  rev (strip ws_width_end (length s) (rev s)).

Definition trim (s : string) : string :=
  String.string_of_list_ascii
    (skip_ws_end (skip_ws (String.list_ascii_of_string s))).

(** [s.length] counts UTF-16 code units: none for a continuation byte,
    two for the first byte of a character beyond U+FFFF, one for any other
    byte. *)
Definition utf16_units (c : ascii) : Z :=
  let b := byte_of c in
  if (128 <=? b) && (b <? 192) then 0
  else if 240 <=? b then 2
  else 1.

Definition str_len (s : string) : Z :=
  foldr (λ c n, utf16_units c + n) 0 (String.list_ascii_of_string s).

(** The value of a character as a digit, up to base 16. *)
Definition digit_val (c : ascii) : option Z :=
  let n := byte_of c in
  if (48 <=? n) && (n <=? 57) then Some (n - 48)
  else if (97 <=? n) && (n <=? 102) then Some (n - 87)
  else if (65 <=? n) && (n <=? 70) then Some (n - 55)
  else None.

(** The longest prefix of digits of the base, read as a number; [acc] is
    [None] until a digit has been read. *)
Fixpoint parse_digits (radix : Z) (s : list ascii) (acc : option Z) : option Z :=
  match s with
  | [] => acc
  | c :: s' =>
      match digit_val c with
      | Some d =>
          if d <? radix
          then parse_digits radix s' (Some (radix * default 0 acc + d))
          else acc
      | None => acc
      end
  end.

(** [parseInt(s)] without a radix: leading white space, a sign, an
    optional [0x] prefix, then digits; [None] is [NaN]. *)
Definition parseInt (s : string) : option Z :=
  let s := skip_ws (String.list_ascii_of_string s) in
  let '(sign, s) :=
    match s with
    | "-"%char :: s' => (-1, s')
    | "+"%char :: s' => (1, s')
    | _ => (1, s)
    end in
  let '(radix, s) :=
    match s with
    | "0"%char :: "x"%char :: s' => (16, s')
    | "0"%char :: "X"%char :: s' => (16, s')
    | _ => (10, s)
    end in
  Z.mul sign <$> parse_digits radix s None.

(** [parseInt(s) || d], for [s] possibly [undefined]: [NaN] and [0] are
    falsy. *)
Definition parseInt_or (s : option string) (d : Z) : Z :=
  match s ≫= parseInt with
  | Some n => if n =? 0 then d else n
  | None => d
  end.

(** ** ObjectIds *)

Definition is_hex (c : ascii) : bool :=
  match digit_val c with Some _ => true | None => false end.

Definition is_lower_hex (c : ascii) : bool :=
  let n := byte_of c in
  ((48 <=? n) && (n <=? 57)) || ((97 <=? n) && (n <=? 102)).

(** The strings Mongoose casts to an ObjectId, with the bson library of
    Mongoose 6: 24 hexadecimal digits, or 12 characters that make 12
    bytes.  Any other string is a cast error. *)
Definition is_ObjectId (id : string) : bool :=
  let cs := String.list_ascii_of_string id in
  ((length cs =? 24)%nat && forallb is_hex cs) ||
  ((length cs =? 12)%nat && forallb (λ c, byte_of c <? 128) cs).

(** An ObjectId as the database prints it and as a collection is keyed:
    24 lower-case hexadecimal digits. *)
Definition ObjectId_hex (id : string) : bool :=
  let cs := String.list_ascii_of_string id in
  (length cs =? 24)%nat && forallb is_lower_hex cs.

(** ** The models *)

(** Modelled from the spec: the authenticated identity, with the [id] and
    [role] the policy reads; the [id] is the ObjectId of a record of the
    users collection, as the database prints it.  The [protect] and
    [optionalAuth] middlewares that leave the identity in [req.user]
    (middleware/auth.js) are not in src: a route behind [protect] takes a
    [User], a route behind [optionalAuth] an [option User], [None] being
    the anonymous viewer. *)
Record User := {
  user_id : string;
  user_role : string
}.

(** Modelled from the spec: a record of the users collection, reduced to
    the fields the routes populate; models/User.js is not in src. *)
Record UserDoc := {
  userdoc_name : string;
  userdoc_email : string
}.

(** *** PDF (src/unnamed/part_000) *)

(** The [metadata] block is never read or written by a route and is
    left out. *)
Record PDF := {
  pdf_id : string;
  pdf_title : string;
  pdf_description : string;
  pdf_filename : string;
  pdf_originalName : string;
  pdf_filePath : string;
  pdf_fileSize : Z;
  pdf_mimeType : string;
  pdf_pageCount : option Z;
  pdf_user : string;
  pdf_isPublic : bool;
  pdf_tags : list string;
  pdf_status : string;
  pdf_accessCount : Z;
  pdf_lastAccessed : Z;
  pdf_createdAt : Z;
  pdf_updatedAt : Z
}.

(** Schema defaults of the PDF model. *)
Definition pdfSchema_isPublic_default : bool := false.
Definition pdfSchema_status_default : string := "ready".
Definition pdfSchema_accessCount_default : Z := 0.
Definition pdfSchema_status_enum : list string := ["processing"; "ready"; "error"].

(** *** Annotation (src/models/Annotation.js) *)

Record Reply := {
  reply_id : string;
  reply_user : string;
  reply_text : string;
  reply_createdAt : Z
}.

Record Annotation := {
  ann_id : string;
  ann_pdf : string;
  ann_user : string;
  ann_page : Q;
  ann_type : string;
  ann_content : gmap string JValue;
  ann_isPrivate : bool;
  ann_replies : list Reply;
  ann_isResolved : bool;
  ann_tags : list string;
  ann_createdAt : Z;
  ann_updatedAt : Z
}.

Definition annotationSchema_type_enum : list string :=
  ["highlight"; "text"; "rectangle"; "circle"; "arrow"; "freehand"].
Definition annotationSchema_isPrivate_default : bool := false.
Definition annotationSchema_isResolved_default : bool := false.

(** Defaults of [content.style]. *)
Definition style_color_default : JValue := JStr "#FFFF00".
Definition style_opacity_default : JValue := JNum (1 # 2).
Definition style_strokeWidth_default : JValue := JNum 2.
Definition style_fontSize_default : JValue := JNum 14.
Definition style_fontFamily_default : JValue := JStr "Arial".

Definition style_defaults : gmap string JValue :=
  {[ "color" := style_color_default;
     "opacity" := style_opacity_default;
     "strokeWidth" := style_strokeWidth_default;
     "fontSize" := style_fontSize_default;
     "fontFamily" := style_fontFamily_default ]}.

(** What Mongoose builds for [content] when a document is constructed:
    every path of [style] that is absent takes its default, and the array
    path [points] is the empty array when absent. *)
Definition applyContentDefaults (c : gmap string JValue) : gmap string JValue :=
  let style :=
    match c !! "style" with
    | Some (JObj st) => st ∪ style_defaults
    | _ => style_defaults
    end in
  let points := default (JArr []) (c !! "points") in
  <["style" := JObj style]> (<["points" := points]> c).

(** What Mongoose builds for [content] when it reads a record: the
    defaults as above, and each of the nested paths [coordinates] and
    [bounds] an object, empty when the record has none. *)
Definition hydrateContent (c : gmap string JValue) : gmap string JValue :=
  let coordinates := default (JObj ∅) (c !! "coordinates") in
  let bounds := default (JObj ∅) (c !! "bounds") in
  <["coordinates" := coordinates]>
    (<["bounds" := bounds]> (applyContentDefaults c)).

Definition is_empty_object (v : JValue) : bool :=
  match v with
  | JObj o => (size o =? 0)%nat
  | _ => false
  end.

(** The [minimize] option of the schema, on by default: an empty object
    is neither written when a document is saved nor shown by [toJSON]. *)
Definition minimizeContent (c : gmap string JValue) : gmap string JValue :=
  filter (λ kv, is_empty_object kv.2 = false) c.

(** The document a response shows for a record read from the database. *)
Definition Annotation_document (a : Annotation) : Annotation :=
  {| ann_id := ann_id a; ann_pdf := ann_pdf a; ann_user := ann_user a;
     ann_page := ann_page a; ann_type := ann_type a;
     ann_content := minimizeContent (hydrateContent (ann_content a));
     ann_isPrivate := ann_isPrivate a; ann_replies := ann_replies a;
     ann_isResolved := ann_isResolved a; ann_tags := ann_tags a;
     ann_createdAt := ann_createdAt a; ann_updatedAt := ann_updatedAt a |}.

(** *** Casts and validators *)

(** Mongoose's cast to Boolean: the values it converts to [true] and to
    [false]; any other value is a cast error. *)
Definition castBoolean (v : JValue) : option bool :=
  match v with
  | JBool b => Some b
  | JStr s =>
      if bool_decide (s ∈ ["true"; "1"; "yes"]) then Some true
      else if bool_decide (s ∈ ["false"; "0"; "no"]) then Some false
      else None
  | JNum q =>
      if Qeq_bool q 1 then Some true
      else if Qeq_bool q 0 then Some false
      else None
  | _ => None
  end.

(** The cast of a value to an array of strings.  Only the shapes a client
    can send as tags are covered: an array of strings, or one string,
    which Mongoose wraps into an array; anything else is refused here. *)
Definition castStringArray (v : JValue) : option (list string) :=
  match v with
  | JArr l => mapM (λ x, match x with JStr s => Some s | _ => None end) l
  | JStr s => Some [s]
  | _ => None
  end.

(** [/^#([A-Fa-f0-9]{6}|[A-Fa-f0-9]{3})$/] *)
Definition hex_color (s : string) : bool :=
  match String.list_ascii_of_string s with
  | "#"%char :: ds =>
      forallb is_hex ds && ((length ds =? 6)%nat || (length ds =? 3)%nat)
  | _ => false
  end.

(** The keys of an object all belong to the paths of the schema. *)
Definition keys_within (o : gmap string JValue) (paths : list string) : bool :=
  bool_decide (map_Forall (λ k _, k ∈ paths) o).

(** An optional number path, with its [min] and [max] when given. *)
Definition number_ok (lo hi : option Q) (v : option JValue) : bool :=
  match v with
  | None => true
  | Some (JNum q) =>
      match lo with Some a => Qle_bool a q | None => true end &&
      match hi with Some b => Qle_bool q b | None => true end
  | Some _ => false
  end.

Definition string_ok (check : string → bool) (v : option JValue) : bool :=
  match v with
  | None => true
  | Some (JStr s) => check s
  | Some _ => false
  end.

Definition object_ok (check : gmap string JValue → bool) (v : option JValue) : bool :=
  match v with
  | None => true
  | Some (JObj o) => check o
  | Some _ => false
  end.

Definition coordinates_ok (o : gmap string JValue) : bool :=
  keys_within o ["x"; "y"; "width"; "height"] &&
  number_ok None None (o !! "x") && number_ok None None (o !! "y") &&
  number_ok None None (o !! "width") && number_ok None None (o !! "height").

Definition bounds_ok (o : gmap string JValue) : bool :=
  keys_within o ["x1"; "y1"; "x2"; "y2"] &&
  number_ok None None (o !! "x1") && number_ok None None (o !! "y1") &&
  number_ok None None (o !! "x2") && number_ok None None (o !! "y2").

Definition point_ok (v : JValue) : bool :=
  match v with
  | JObj o =>
      keys_within o ["x"; "y"] &&
      number_ok None None (o !! "x") && number_ok None None (o !! "y")
  | _ => false
  end.

Definition points_ok (v : option JValue) : bool :=
  match v with
  | None => true
  | Some (JArr l) => forallb point_ok l
  | Some _ => false
  end.

Definition style_ok (o : gmap string JValue) : bool :=
  keys_within o ["color"; "opacity"; "strokeWidth"; "fontSize"; "fontFamily"] &&
  string_ok hex_color (o !! "color") &&
  number_ok (Some 0%Q) (Some 1%Q) (o !! "opacity") &&
  number_ok (Some 1%Q) (Some 10%Q) (o !! "strokeWidth") &&
  number_ok (Some 8%Q) (Some 72%Q) (o !! "fontSize") &&
  string_ok (λ _, true) (o !! "fontFamily").

(** The validators of the paths under [content].  Values are expected in
    the type the schema declares and under the paths it declares; the
    casts Mongoose would try on other values, and its dropping of unknown
    keys, are not modelled: such a content is refused. *)
Definition content_valid (c : gmap string JValue) : bool :=
  keys_within c ["text"; "coordinates"; "bounds"; "points"; "style"] &&
  string_ok (λ s, str_len s <=? 1000) (c !! "text") &&
  object_ok coordinates_ok (c !! "coordinates") &&
  object_ok bounds_ok (c !! "bounds") &&
  points_ok (c !! "points") &&
  object_ok style_ok (c !! "style").

(** [required: true] on [content.coordinates.x] and [.y]: checked when a
    document is saved and when an update sets [content]. *)
Definition content_required (c : gmap string JValue) : bool :=
  match c !! "coordinates" with
  | Some (JObj o) =>
      match o !! "x", o !! "y" with
      | Some (JNum _), Some (JNum _) => true
      | _, _ => false
      end
  | _ => false
  end.

(** Tags: [trim: true] is a setter, [maxlength] a validator. *)
Definition trim_all (tags : list string) : list string := trim <$> tags.

Definition tags_valid (limit : Z) (tags : list string) : bool :=
  forallb (λ t, str_len t <=? limit) tags.

(** [required] on a String path refuses the empty string. *)
Definition present (s : string) : bool := negb (String.eqb s "").

(** The validators of the PDF schema, as a save runs them on a document. *)
Definition pdf_doc_valid (pdf : PDF) : bool :=
  present (pdf_title pdf) && (str_len (pdf_title pdf) <=? 100)
  && (str_len (pdf_description pdf) <=? 500)
  && present (pdf_filename pdf)
  && present (pdf_originalName pdf)
  && present (pdf_filePath pdf)
  && String.eqb (pdf_mimeType pdf) "application/pdf"
  && tags_valid 30 (pdf_tags pdf)
  && bool_decide (pdf_status pdf ∈ pdfSchema_status_enum).

Definition reply_valid (r : Reply) : bool :=
  present (reply_text r) && (str_len (reply_text r) <=? 500).

(** The validators of the annotation schema, as a save runs them on a
    document. *)
Definition annotation_doc_valid (a : Annotation) : bool :=
  Qle_bool 1 (ann_page a)
  && bool_decide (ann_type a ∈ annotationSchema_type_enum)
  && content_valid (ann_content a) && content_required (ann_content a)
  && forallb reply_valid (ann_replies a)
  && tags_valid 20 (ann_tags a).

(** ** The store and the handler monad *)

(** Every write to the database or to the upload directory is recorded,
    in order, in the journal. *)
Inductive Event :=
  | EvInsertPdf (id : string)
  | EvSavePdf (id : string)
  | EvDeletePdf (id : string)
  | EvInsertAnnotation (id : string)
  | EvUpdateAnnotation (id : string)
  | EvSaveAnnotation (id : string)
  | EvDeleteAnnotation (id : string)
  | EvDeleteAnnotationsOf (pdf : string)
  | EvWriteFile (path : string)
  | EvUnlink (path : string).

(** The collections, keyed by [_id], and the files on disk.  An [_id] is
    an ObjectId, as is every reference from one record to another. *)
Record Store := {
  pdfs : gmap string PDF;
  annotations : gmap string Annotation;
  users : gmap string UserDoc;
  files : gset string;
  journal : list Event
}.

(** What the environment supplies to one request: the clock, the
    identifier the database driver generates next, and the result of
    [uuidv4()]. *)
Record Ctx := {
  now : Z;
  newId : string;
  uuid : string
}.

Inductive Error :=
  | MulterError (code : string)
  | PlainError (message : string)
  | ValidationError (path : string)
  | CastError (path : string)
  | DuplicateKey (id : string)
  | TypeError (message : string).

(** [err.message], as far as a handler compares it. *)
Definition error_message (e : Error) : string :=
  match e with
  | MulterError code =>
      if String.eqb code "LIMIT_FILE_SIZE" then "File too large"
      else if String.eqb code "LIMIT_UNEXPECTED_FILE" then "Unexpected field"
      else code
  | PlainError m => m
  | ValidationError p => "Validation failed: " +:+ p
  | CastError p => "Cast failed: " +:+ p
  | DuplicateKey id => "E11000 duplicate key: " +:+ id
  | TypeError m => m
  end.

(** A computation reads and writes the store and either returns a value
    or throws; what it wrote before throwing stays written. *)
Definition M (A : Type) : Type := Store → (Error + A) * Store.

#[export] Instance M_ret : MRet M := λ A a s, (inr a, s).

#[export] Instance M_bind : MBind M := λ A B f m s,
  match m s with
  | (inl e, s') => (inl e, s')
  | (inr a, s') => f a s'
  end.

Definition throw {A} (e : Error) : M A := λ s, (inl e, s).
Definition gets {A} (f : Store → A) : M A := λ s, (inr (f s), s).
Definition modify (f : Store → Store) : M unit := λ s, (inr tt, f s).

(** [if (b) { m }] *)
Definition when_ (b : bool) (m : M unit) : M unit :=
  if b then m else mret tt.

Definition record (e : Event) (s : Store) : Store :=
  {| pdfs := pdfs s; annotations := annotations s; users := users s;
     files := files s; journal := journal s ++ [e] |}.

Definition set_pdfs (f : gmap string PDF → gmap string PDF) (s : Store) : Store :=
  {| pdfs := f (pdfs s); annotations := annotations s; users := users s;
     files := files s; journal := journal s |}.

Definition set_annotations
    (f : gmap string Annotation → gmap string Annotation) (s : Store) : Store :=
  {| pdfs := pdfs s; annotations := f (annotations s); users := users s;
     files := files s; journal := journal s |}.

Definition set_files (f : gset string → gset string) (s : Store) : Store :=
  {| pdfs := pdfs s; annotations := annotations s; users := users s;
     files := f (files s); journal := journal s |}.

(** ** Responses *)

Inductive Body :=
  | BMessage (success : bool) (message : string)
  | BUploaded (message : string) (pdf : PDF)
  | BPdfDetail (pdf : PDF) (owner : UserDoc) (annotations : list Annotation)
  | BAnnotation (message : string) (annotation : option Annotation)
  | BAnnotations (count : nat) (annotations : list Annotation).

(** How a request ends: a JSON response, a file piped into the response,
    or an error handed to [next]. *)
Inductive Outcome :=
  | Json (status : Z) (body : Body)
  | Stream (contentType contentDisposition : string) (contentLength : Z)
           (path : string)
  | Next (e : Error).

Definition Handler : Type := Store → Outcome * Store.

(** [try { body } catch (error) { handler(error) }] *)
Definition try_catch (body : M Outcome) (handler : Error → M Outcome) : Handler :=
  λ s,
    match body s with
    | (inr r, s') => (r, s')
    | (inl e, s') =>
        match handler e s' with
        | (inr r, s'') => (r, s'')
        | (inl e', s'') => (Next e', s'')
        end
    end.

(** [try { body } catch (error) { next(error) }] *)
Definition catch_next (body : M Outcome) : Handler :=
  try_catch body (λ e, mret (Next e)).

(** ** Database and file system operations *)

(** [Model.findById(id)] with an id taken from the request.  Mongoose
    casts the id to an ObjectId before it asks the database, and throws a
    CastError when the string is none.  The keys of a collection are
    ObjectIds, so an id under which a record is stored has passed the
    cast. *)
Definition findById {A} (collection : Store → gmap string A) (id : string)
    : M (option A) :=
  found ← gets (λ s, collection s !! id);
  match found with
  | Some x => mret (Some x)
  | None => if is_ObjectId id then mret None else throw (CastError "_id")
  end.

Definition PDF_findById (id : string) : M (option PDF) := findById pdfs id.

(** [Model.findById(ref)] with a reference read from a document: it is an
    ObjectId, there is nothing to cast. *)
Definition PDF_findByRef (ref : string) : M (option PDF) :=
  gets (λ s, pdfs s !! ref).

(** [.populate('user', ...)]: the owner's record, [null] when it is gone. *)
Definition User_populate (id : string) : M (option UserDoc) :=
  gets (λ s, users s !! id).

(** The [timestamps] option: a save stamps [updatedAt]. *)
Definition stamp_updatedAt (ctx : Ctx) (pdf : PDF) : PDF :=
  {| pdf_id := pdf_id pdf; pdf_title := pdf_title pdf;
     pdf_description := pdf_description pdf; pdf_filename := pdf_filename pdf;
     pdf_originalName := pdf_originalName pdf; pdf_filePath := pdf_filePath pdf;
     pdf_fileSize := pdf_fileSize pdf; pdf_mimeType := pdf_mimeType pdf;
     pdf_pageCount := pdf_pageCount pdf; pdf_user := pdf_user pdf;
     pdf_isPublic := pdf_isPublic pdf; pdf_tags := pdf_tags pdf;
     pdf_status := pdf_status pdf; pdf_accessCount := pdf_accessCount pdf;
     pdf_lastAccessed := pdf_lastAccessed pdf;
     pdf_createdAt := pdf_createdAt pdf; pdf_updatedAt := now ctx |}.

(** [pdf.save()]: validate, then write; the document in memory is
    stamped as well. *)
Definition PDF_save (ctx : Ctx) (pdf : PDF) : M PDF :=
  if negb (pdf_doc_valid pdf) then throw (ValidationError "PDF")
  else
    let saved := stamp_updatedAt ctx pdf in
    modify (λ s, record (EvSavePdf (pdf_id pdf))
                   (set_pdfs <[pdf_id pdf := saved]> s));;
    mret saved.

(** [PDF.findByIdAndDelete(id)], for an id under which a document was
    found. *)
Definition PDF_findByIdAndDelete (id : string) : M unit :=
  modify (λ s, record (EvDeletePdf id) (set_pdfs (delete id) s)).

Definition fs_existsSync (path : string) : M bool :=
  gets (λ s, bool_decide (path ∈ files s)).

(** [fs.unlink]: a failure is only logged by its callback. *)
Definition fs_unlink (path : string) : M unit :=
  modify (λ s, record (EvUnlink path) (set_files (λ fs, fs ∖ {[path]}) s)).

Definition Annotation_findById (id : string) : M (option Annotation) :=
  findById annotations id.

Definition Annotation_findByRef (ref : string) : M (option Annotation) :=
  gets (λ s, annotations s !! ref).

(** [Annotation.deleteMany({ pdf })] *)
Definition Annotation_deleteMany (pdf : string) : M unit :=
  modify (λ s,
    record (EvDeleteAnnotationsOf pdf)
      (set_annotations (filter (λ kv, ann_pdf kv.2 ≠ pdf)) s)).

(** [Annotation.findByIdAndDelete(id)], for an id under which an
    annotation was found. *)
Definition Annotation_findByIdAndDelete (id : string) : M unit :=
  modify (λ s, record (EvDeleteAnnotation id) (set_annotations (delete id) s)).

(** [pdfSchema.pre('remove', ...)]: the hook that runs before a document
    is removed through [pdf.remove()].  The delete route removes by
    [findByIdAndDelete], which does not run it, and deletes the
    annotations itself. *)
Definition pdfSchema_pre_remove (this : PDF) : M unit :=
  Annotation_deleteMany (pdf_id this).

(** [pdf.remove()] *)
Definition PDF_remove (this : PDF) : M unit :=
  pdfSchema_pre_remove this;;
  modify (λ s, record (EvDeletePdf (pdf_id this))
                 (set_pdfs (delete (pdf_id this)) s)).

(** A MongoDB filter over annotations, as the list route builds it. *)
Record AnnQuery := {
  q_pdf : string;
  q_isPrivate : option bool;
  q_page : option Z;
  q_type : option string;
  q_isResolved : option bool
}.

Definition ann_matches (q : AnnQuery) (a : Annotation) : bool :=
  bool_decide (ann_pdf a = q_pdf q) &&
  match q_isPrivate q with Some b => Bool.eqb (ann_isPrivate a) b | None => true end &&
  match q_page q with Some p => Qeq_bool (ann_page a) (inject_Z p) | None => true end &&
  match q_type q with Some t => String.eqb (ann_type a) t | None => true end &&
  match q_isResolved q with Some b => Bool.eqb (ann_isResolved a) b | None => true end.

(** [.sort({ createdAt: -1 })] *)
Definition newest_first (a b : Annotation) : Prop :=
  ann_createdAt b ≤ ann_createdAt a.

#[export] Instance newest_first_dec a b : Decision (newest_first a b) :=
  Z_le_dec (ann_createdAt b) (ann_createdAt a).

Definition all_annotations (s : Store) : list Annotation :=
  (map_to_list (annotations s)).*2.

Definition Annotation_find (q : AnnQuery) : M (list Annotation) :=
  gets (λ s,
    merge_sort newest_first (filter (λ a, ann_matches q a) (all_annotations s))).

(** The virtual [annotations] of a PDF, populated: the annotations whose
    [pdf] is the document's [_id]. *)
Definition Annotation_populate (pdf : string) : M (list Annotation) :=
  gets (λ s, filter (λ a, ann_pdf a = pdf) (all_annotations s)).

(** The argument of [Annotation.create]. *)
Record AnnFields := {
  af_pdf : string;
  af_user : string;
  af_page : Q;
  af_type : string;
  af_content : gmap string JValue;
  af_isPrivate : JValue;
  af_tags : list string
}.

(** [Annotation.create(fields)]: build the document with its defaults,
    validate it, and insert it under a new id; the database refuses a key
    it already holds. *)
Definition Annotation_create (ctx : Ctx) (f : AnnFields) : M Annotation :=
  match castBoolean (af_isPrivate f) with
  | None => throw (ValidationError "isPrivate")
  | Some isPrivate =>
      let a :=
        {| ann_id := newId ctx; ann_pdf := af_pdf f; ann_user := af_user f;
           ann_page := af_page f; ann_type := af_type f;
           ann_content := minimizeContent (applyContentDefaults (af_content f));
           ann_isPrivate := isPrivate;
           ann_replies := [];
           ann_isResolved := annotationSchema_isResolved_default;
           ann_tags := trim_all (af_tags f);
           ann_createdAt := now ctx; ann_updatedAt := now ctx |} in
      if negb (annotation_doc_valid a) then throw (ValidationError "Annotation")
      else
        existing ← Annotation_findByRef (newId ctx);
        match existing with
        | Some _ => throw (DuplicateKey (newId ctx))
        | None =>
            modify (λ s, record (EvInsertAnnotation (newId ctx))
                           (set_annotations <[newId ctx := a]> s));;
            mret a
        end
  end.

(** The update document of [Annotation.findByIdAndUpdate]. *)
Record AnnUpdate := {
  up_content : option (gmap string JValue);
  up_isPrivate : option bool;
  up_isResolved : option bool;
  up_tags : option (list string)
}.

Definition apply_update (ctx : Ctx) (up : AnnUpdate) (a : Annotation) : Annotation :=
  {| ann_id := ann_id a; ann_pdf := ann_pdf a; ann_user := ann_user a;
     ann_page := ann_page a; ann_type := ann_type a;
     ann_content := default (ann_content a) (up_content up);
     ann_isPrivate := default (ann_isPrivate a) (up_isPrivate up);
     ann_replies := ann_replies a;
     ann_isResolved := default (ann_isResolved a) (up_isResolved up);
     ann_tags := default (ann_tags a) (trim_all <$> up_tags up);
     ann_createdAt := ann_createdAt a; ann_updatedAt := now ctx |}.

(** The update validators ([runValidators: true]) run on the paths the
    update sets; when it sets [content], these are all the paths under
    [content], the required ones included. *)
Definition update_valid (up : AnnUpdate) : bool :=
  from_option (λ c, content_valid c && content_required c) true (up_content up) &&
  from_option (tags_valid 20) true (trim_all <$> up_tags up).

(** [Annotation.findByIdAndUpdate(id, update, { new: true, runValidators: true })]:
    the record is written as the update sets it, without defaults; the
    result is the document built from the updated record, [null] when
    there is none. *)
Definition Annotation_findByIdAndUpdate
    (ctx : Ctx) (id : string) (up : AnnUpdate) : M (option Annotation) :=
  if negb (update_valid up) then throw (ValidationError "Annotation")
  else
    found ← Annotation_findById id;
    match found with
    | None => mret None
    | Some a =>
        let a' := apply_update ctx up a in
        modify (λ s, record (EvUpdateAnnotation id)
                       (set_annotations <[id := a']> s));;
        mret (Some (Annotation_document a'))
    end.

Definition with_replies (ctx : Ctx) (a : Annotation) (rs : list Reply) : Annotation :=
  {| ann_id := ann_id a; ann_pdf := ann_pdf a; ann_user := ann_user a;
     ann_page := ann_page a; ann_type := ann_type a;
     ann_content := ann_content a; ann_isPrivate := ann_isPrivate a;
     ann_replies := rs;
     ann_isResolved := ann_isResolved a; ann_tags := ann_tags a;
     ann_createdAt := ann_createdAt a; ann_updatedAt := now ctx |}.

(** [annotation.replies.push(r); await annotation.save()]: validate,
    then write. *)
Definition Annotation_pushReply (ctx : Ctx) (a : Annotation) (r : Reply) : M unit :=
  let a' := with_replies ctx a (ann_replies a ++ [r]) in
  if negb (annotation_doc_valid a') then throw (ValidationError "Annotation")
  else
    modify (λ s, record (EvSaveAnnotation (ann_id a))
                   (set_annotations <[ann_id a := a']> s)).

(** The argument of [PDF.create]. *)
Record PdfFields := {
  pf_title : string;
  pf_description : string;
  pf_filename : string;
  pf_originalName : string;
  pf_filePath : string;
  pf_fileSize : Z;
  pf_mimeType : string;
  pf_user : string;
  pf_isPublic : JValue;
  pf_tags : JValue;
  pf_status : string
}.

Definition PDF_create (ctx : Ctx) (f : PdfFields) : M PDF :=
  match castBoolean (pf_isPublic f), castStringArray (pf_tags f) with
  | Some isPublic, Some tags =>
      let pdf :=
        {| pdf_id := newId ctx; pdf_title := trim (pf_title f);
           pdf_description := trim (pf_description f);
           pdf_filename := pf_filename f;
           pdf_originalName := pf_originalName f;
           pdf_filePath := pf_filePath f; pdf_fileSize := pf_fileSize f;
           pdf_mimeType := pf_mimeType f; pdf_pageCount := None;
           pdf_user := pf_user f; pdf_isPublic := isPublic;
           pdf_tags := trim_all tags; pdf_status := pf_status f;
           pdf_accessCount := pdfSchema_accessCount_default;
           pdf_lastAccessed := now ctx;
           pdf_createdAt := now ctx; pdf_updatedAt := now ctx |} in
      if negb (pdf_doc_valid pdf) then throw (ValidationError "PDF")
      else
        existing ← PDF_findByRef (newId ctx);
        match existing with
        | Some _ => throw (DuplicateKey (newId ctx))
        | None =>
            modify (λ s, record (EvInsertPdf (newId ctx))
                           (set_pdfs <[newId ctx := pdf]> s));;
            mret pdf
        end
  | _, _ => throw (ValidationError "PDF")
  end.

(** ** The upload middleware (src/middleware/upload.js) *)

(** The file part of a multipart request, as multer sees it. *)
Record FilePart := {
  part_fieldname : string;
  part_originalname : string;
  part_mimetype : string;
  part_size : Z
}.

(** [req.file] *)
Record File := {
  file_originalname : string;
  file_mimetype : string;
  file_filename : string;
  file_path : string;
  file_size : Z
}.

(** An upload request that passed [protect]: the identity, at most one
    file part, and the text fields of the form. *)
Record UploadReq := {
  upload_user : User;
  upload_part : option FilePart;
  upload_title : option string;
  upload_description : option string;
  upload_tags : option string;
  upload_isPublic : option string
}.

Definition uploadDir : string := "./uploads/pdfs".

(** [fileFilter]: the error it passes to its callback, if any. *)
Definition fileFilter (file : FilePart) : option Error :=
  if String.eqb (part_mimetype file) "application/pdf" then None
  else Some (PlainError "Only PDF files are allowed!").

(** [handleMulterError], the error-handling middleware behind
    [upload.single]. *)
Definition handleMulterError (err : Error) : Outcome :=
  let instanceof_MulterError :=
    match err with MulterError _ => true | _ => false end in
  let code := match err with MulterError c => c | _ => "" end in
  if instanceof_MulterError && String.eqb code "LIMIT_FILE_SIZE" then
    Json 400 (BMessage false "File size too large. Maximum size allowed is 50MB.")
  else if instanceof_MulterError && String.eqb code "LIMIT_UNEXPECTED_FILE" then
    Json 400 (BMessage false "Too many files. Only one PDF file is allowed.")
  else if String.eqb (error_message err) "Only PDF files are allowed!" then
    Json 400 (BMessage false "Invalid file type. Only PDF files are allowed.")
  else Next err.

Section Platform.

(** The platform functions the upload path calls: [JSON.parse] ([None]
    when it throws), [path.extname], [path.join] (by which multer's
    disk storage forms [file.path]), and the environment variable
    [process.env.MAX_FILE_SIZE]. *)
Variable JSON_parse : string → option JValue.
Variable path_extname : string → string.
Variable path_join : string → string → string.
Variable MAX_FILE_SIZE : option string.

(** [limits.fileSize] *)
Definition limits_fileSize : Z :=
  parseInt_or MAX_FILE_SIZE (50 * 1024 * 1024).

(** [storage.filename] *)
Definition storage_filename (ctx : Ctx) (file : FilePart) : string :=
  uuid ctx +:+ path_extname (part_originalname file).

(** [upload.single(field)]: multer refuses a file under another field
    name, asks [fileFilter], then streams the file to disk.  Its parser
    (busboy 1) hands on at most [limits.fileSize] bytes of the file and
    stops with [LIMIT_FILE_SIZE] once that many have arrived, multer then
    removing what it wrote.  With a negative limit it hands on no byte and
    never stops: the file is stored empty. *)
Definition upload_single (field : string) (ctx : Ctx) (req : UploadReq)
    : M (option File) :=
  match upload_part req with
  | None => mret None
  | Some part =>
      if negb (String.eqb (part_fieldname part) field) then
        throw (MulterError "LIMIT_UNEXPECTED_FILE")
      else
        match fileFilter part with
        | Some err => throw err
        | None =>
            if (0 <=? limits_fileSize) && (limits_fileSize <=? part_size part)
            then throw (MulterError "LIMIT_FILE_SIZE")
            else
              let name := storage_filename ctx part in
              let file :=
                {| file_originalname := part_originalname part;
                   file_mimetype := part_mimetype part;
                   file_filename := name;
                   file_path := path_join uploadDir name;
                   file_size :=
                     if limits_fileSize <? 0 then 0 else part_size part |} in
              modify (λ s, record (EvWriteFile (file_path file))
                             (set_files (λ fs, fs ∪ {[file_path file]}) s));;
              mret (Some file)
        end
  end.

(** The value handed to [PDF.create] as [isPublic]. *)
Definition upload_isPublic_value (req : UploadReq) : JValue :=
  js_or (JStr <$> upload_isPublic req) (JStr "true").

Definition upload_parsedTags (req : UploadReq) : JValue :=
  match upload_tags req with
  | Some tags =>
      if String.eqb tags "" then JArr []
      else default (JArr []) (JSON_parse tags)
  | None => JArr []
  end.

(** POST /api/pdfs/upload, the final handler. *)
Definition uploadHandler (ctx : Ctx) (req : UploadReq) (file : option File)
    : Handler :=
  try_catch
    (match file with
     | None => mret (Json 400 (BMessage false "Please upload a PDF file"))
     | Some file =>
         pdf ← PDF_create ctx
           {| pf_title := str_or (upload_title req) (file_originalname file);
              pf_description := str_or (upload_description req) "";
              pf_filename := file_filename file;
              pf_originalName := file_originalname file;
              pf_filePath := file_path file;
              pf_fileSize := file_size file;
              pf_mimeType := file_mimetype file;
              pf_user := user_id (upload_user req);
              pf_isPublic := upload_isPublic_value req;
              pf_tags := upload_parsedTags req;
              pf_status := "ready" |};
         mret (Json 201 (BUploaded "PDF uploaded successfully" pdf))
     end)
    (λ error,
       match file with
       | Some file => fs_unlink (file_path file)
       | None => mret tt
       end;;
       mret (Next error)).

(** The route: [upload.single('pdf')], then [handleMulterError] if it
    failed, the final handler if it did not. *)
Definition uploadRoute (ctx : Ctx) (req : UploadReq) : Handler :=
  λ s,
    match upload_single "pdf" ctx req s with
    | (inl err, s') => (handleMulterError err, s')
    | (inr file, s') => uploadHandler ctx req file s'
    end.

End Platform.

(** ** The pdf routes (src/routes/pdfs.js, first part) *)

(** A request for one PDF behind [optionalAuth]: [req.user] is absent for
    an anonymous viewer. *)
Record PdfReq := {
  pdfreq_id : string;
  pdfreq_user : option User
}.

(** A request for one PDF behind [protect]. *)
Record PdfAuthReq := {
  pdfauth_id : string;
  pdfauth_user : User
}.

(** Reading a property of a populated reference that is [null] throws. *)
Definition deref {A} (o : option A) : M A :=
  match o with
  | Some a => mret a
  | None => throw (TypeError "Cannot read properties of null")
  end.

(** [pdf.isPublic || (req.user && pdf.user._id.toString() === req.user.id)]
    on a PDF whose [user] is populated with [owner]. *)
Definition hasAccess_detail
    (pdf : PDF) (owner : option UserDoc) (viewer : option User) : M bool :=
  if pdf_isPublic pdf then mret true
  else
    match viewer with
    | None => mret false
    | Some u =>
        deref owner;;
        mret (bool_decide (pdf_user pdf = user_id u))
    end.

(** [pdf.isPublic || (req.user && pdf.user.toString() === req.user.id)] *)
Definition hasAccess_file (pdf : PDF) (viewer : option User) : bool :=
  pdf_isPublic pdf ||
  match viewer with
  | Some u => bool_decide (pdf_user pdf = user_id u)
  | None => false
  end.

(** [pdf.accessCount += 1; pdf.lastAccessed = new Date()] *)
Definition touch (ctx : Ctx) (pdf : PDF) : PDF :=
  {| pdf_id := pdf_id pdf; pdf_title := pdf_title pdf;
     pdf_description := pdf_description pdf; pdf_filename := pdf_filename pdf;
     pdf_originalName := pdf_originalName pdf; pdf_filePath := pdf_filePath pdf;
     pdf_fileSize := pdf_fileSize pdf; pdf_mimeType := pdf_mimeType pdf;
     pdf_pageCount := pdf_pageCount pdf; pdf_user := pdf_user pdf;
     pdf_isPublic := pdf_isPublic pdf; pdf_tags := pdf_tags pdf;
     pdf_status := pdf_status pdf;
     pdf_accessCount := pdf_accessCount pdf + 1;
     pdf_lastAccessed := now ctx;
     pdf_createdAt := pdf_createdAt pdf; pdf_updatedAt := pdf_updatedAt pdf |}.

Definition not_private (a : Annotation) : Prop := ann_isPrivate a = false.

(** The filter of the detail route:
    [if (!req.user || pdf.user._id.toString() !== req.user.id)
       annotations = annotations.filter(a => !a.isPrivate)] *)
Definition visible_annotations
    (pdf : PDF) (owner : option UserDoc) (viewer : option User)
    (anns : list Annotation) : M (list Annotation) :=
  match viewer with
  | None => mret (filter not_private anns)
  | Some u =>
      deref owner;;
      if bool_decide (pdf_user pdf ≠ user_id u)
      then mret (filter not_private anns)
      else mret anns
  end.

(** GET /api/pdfs/:id *)
Definition getPdf (ctx : Ctx) (req : PdfReq) : Handler :=
  catch_next
    (found ← PDF_findById (pdfreq_id req);
     match found with
     | None => mret (Json 404 (BMessage false "PDF not found"))
     | Some pdf =>
         owner ← User_populate (pdf_user pdf);
         anns ← Annotation_populate (pdf_id pdf);
         hasAccess ← hasAccess_detail pdf owner (pdfreq_user req);
         if negb hasAccess then
           mret (Json 403 (BMessage false "Not authorized to access this PDF"))
         else
           pdf ← PDF_save ctx (touch ctx pdf);
           annotations ← visible_annotations pdf owner (pdfreq_user req) anns;
           user ← deref owner;
           mret (Json 200 (BPdfDetail pdf user annotations))
     end).

Definition double_quote : string := String (ascii_of_nat 34) "".

(** GET /api/pdfs/:id/file *)
Definition getPdfFile (req : PdfReq) : Handler :=
  catch_next
    (found ← PDF_findById (pdfreq_id req);
     match found with
     | None => mret (Json 404 (BMessage false "PDF not found"))
     | Some pdf =>
         if negb (hasAccess_file pdf (pdfreq_user req)) then
           mret (Json 403 (BMessage false "Not authorized to access this PDF"))
         else
           exists_ ← fs_existsSync (pdf_filePath pdf);
           if negb exists_ then
             mret (Json 404 (BMessage false "PDF file not found on server"))
           else
             mret (Stream "application/pdf"
                     ("inline; filename=" +:+ double_quote
                        +:+ pdf_originalName pdf +:+ double_quote)
                     (pdf_fileSize pdf) (pdf_filePath pdf))
     end).

(** [pdf.user.toString() !== req.user.id && req.user.role !== 'admin'] *)
Definition not_owner_nor_admin (owner : string) (u : User) : bool :=
  bool_decide (owner ≠ user_id u) && bool_decide (user_role u ≠ "admin").

(** DELETE /api/pdfs/:id *)
Definition deletePdf (req : PdfAuthReq) : Handler :=
  catch_next
    (found ← PDF_findById (pdfauth_id req);
     match found with
     | None => mret (Json 404 (BMessage false "PDF not found"))
     | Some pdf =>
         if not_owner_nor_admin (pdf_user pdf) (pdfauth_user req) then
           mret (Json 403 (BMessage false "Not authorized to delete this PDF"))
         else
           Annotation_deleteMany (pdf_id pdf);;
           exists_ ← fs_existsSync (pdf_filePath pdf);
           when_ exists_ (fs_unlink (pdf_filePath pdf));;
           PDF_findByIdAndDelete (pdfauth_id req);;
           mret (Json 200 (BMessage true "PDF deleted successfully"))
     end).

(** ** The annotation routes (src/routes/pdfs.js, second part) *)

(** [pdf.user.toString() === req.user.id || pdf.isPublic] *)
Definition hasAccess_annotate (pdf : PDF) (u : User) : bool :=
  bool_decide (pdf_user pdf = user_id u) || pdf_isPublic pdf.

(** The body of POST /api/annotations.  The fields arrive in the type the
    schema declares for them, except [isPrivate], which the handler
    passes through [||]. *)
Record CreateReq := {
  create_user : User;
  create_pdfId : option string;
  create_page : option Q;
  create_type : option string;
  create_content : option (gmap string JValue);
  create_isPrivate : option JValue;
  create_tags : option (list string)
}.

(** POST /api/annotations *)
Definition createAnnotation (ctx : Ctx) (req : CreateReq) : Handler :=
  catch_next
    (match create_pdfId req, create_page req, create_type req, create_content req with
     | Some pdfId, Some page, Some type, Some content =>
         if String.eqb pdfId "" || Qeq_bool page 0 || String.eqb type "" then
           mret (Json 400 (BMessage false
                   "Please provide pdfId, page, type, and content"))
         else
           found ← PDF_findById pdfId;
           match found with
           | None => mret (Json 404 (BMessage false "PDF not found"))
           | Some pdf =>
               if negb (hasAccess_annotate pdf (create_user req)) then
                 mret (Json 403 (BMessage false
                         "Not authorized to annotate this PDF"))
               else
                 annotation ← Annotation_create ctx
                   {| af_pdf := pdfId;
                      af_user := user_id (create_user req);
                      af_page := page;
                      af_type := type;
                      af_content := content;
                      af_isPrivate := js_or (create_isPrivate req) (JBool false);
                      af_tags := default [] (create_tags req) |};
                 populatedAnnotation ← Annotation_findByRef (ann_id annotation);
                 mret (Json 201 (BAnnotation "Annotation created successfully"
                                   populatedAnnotation))
           end
     | _, _, _, _ =>
         mret (Json 400 (BMessage false
                 "Please provide pdfId, page, type, and content"))
     end).

(** GET /api/annotations/pdf/:pdfId, behind [protect]; the query string
    holds [page], [type] and [isResolved]. *)
Record ListReq := {
  list_user : User;
  list_pdfId : string;
  list_page : option string;
  list_type : option string;
  list_isResolved : option string
}.

Definition nonempty (s : option string) : option string :=
  match s with
  | Some s => if String.eqb s "" then None else Some s
  | None => None
  end.

(** GET /api/annotations/pdf/:pdfId *)
Definition listAnnotations (req : ListReq) : Handler :=
  catch_next
    (found ← PDF_findById (list_pdfId req);
     match found with
     | None => mret (Json 404 (BMessage false "PDF not found"))
     | Some pdf =>
         if negb (hasAccess_annotate pdf (list_user req)) then
           mret (Json 403 (BMessage false
                   "Not authorized to view annotations for this PDF"))
         else
           (* query.page = parseInt(page): a NaN does not cast to Number *)
           page ← match nonempty (list_page req) with
                  | None => mret None
                  | Some p =>
                      match parseInt p with
                      | Some n => mret (Some n)
                      | None => throw (CastError "page")
                      end
                  end;
           let query :=
             {| q_pdf := list_pdfId req;
                q_isPrivate :=
                  if bool_decide (pdf_user pdf ≠ user_id (list_user req))
                  then Some false else None;
                q_page := page;
                q_type := nonempty (list_type req);
                q_isResolved :=
                  (λ v, String.eqb v "true") <$> list_isResolved req |} in
           annotations ← Annotation_find query;
           mret (Json 200 (BAnnotations (length annotations) annotations))
     end).

(** The body of PUT /api/annotations/:id. *)
Record UpdateReq := {
  update_user : User;
  update_id : string;
  update_content : option (gmap string JValue);
  update_isPrivate : option JValue;
  update_isResolved : option JValue;
  update_tags : option (list string)
}.

(** [typeof v === 'boolean'] selects the value. *)
Definition if_boolean (v : option JValue) : option bool :=
  match v with
  | Some (JBool b) => Some b
  | _ => None
  end.

(** [{ ...annotation.content, ...content }] *)
Definition merge_content (old patch : gmap string JValue) : gmap string JValue :=
  patch ∪ old.

(** The [updateFields] of the update route; [annotation.content] is the
    content of the document Mongoose built from the record it read. *)
Definition updateFields (annotation : Annotation) (req : UpdateReq) : AnnUpdate :=
  {| up_content :=
       merge_content (hydrateContent (ann_content annotation))
         <$> update_content req;
     up_isPrivate := if_boolean (update_isPrivate req);
     up_isResolved := if_boolean (update_isResolved req);
     up_tags := update_tags req |}.

(** PUT /api/annotations/:id *)
Definition updateAnnotation (ctx : Ctx) (req : UpdateReq) : Handler :=
  catch_next
    (found ← Annotation_findById (update_id req);
     match found with
     | None => mret (Json 404 (BMessage false "Annotation not found"))
     | Some annotation =>
         if bool_decide (ann_user annotation ≠ user_id (update_user req)) then
           mret (Json 403 (BMessage false
                   "Not authorized to update this annotation"))
         else
           updated ← Annotation_findByIdAndUpdate ctx (update_id req)
                       (updateFields annotation req);
           mret (Json 200 (BAnnotation "Annotation updated successfully" updated))
     end).

Record AnnReq := {
  annreq_user : User;
  annreq_id : string
}.

(** DELETE /api/annotations/:id *)
Definition deleteAnnotation (req : AnnReq) : Handler :=
  catch_next
    (found ← Annotation_findById (annreq_id req);
     match found with
     | None => mret (Json 404 (BMessage false "Annotation not found"))
     | Some annotation =>
         if not_owner_nor_admin (ann_user annotation) (annreq_user req) then
           mret (Json 403 (BMessage false
                   "Not authorized to delete this annotation"))
         else
           Annotation_findByIdAndDelete (annreq_id req);;
           mret (Json 200 (BMessage true "Annotation deleted successfully"))
     end).

(** The body of POST /api/annotations/:id/replies. *)
Record ReplyReq := {
  replyreq_user : User;
  replyreq_id : string;
  replyreq_text : option JValue
}.

(** [!text || text.trim().length === 0]; [text.trim] is not a function
    on a truthy value that is not a string. *)
Definition reply_text_missing (text : option JValue) : M bool :=
  match text with
  | None => mret true
  | Some v =>
      if negb (truthy v) then mret true
      else
        match v with
        | JStr s => mret (String.eqb (trim s) "")
        | _ => throw (TypeError "text.trim is not a function")
        end
  end.

Definition text_of (text : option JValue) : string :=
  match text with
  | Some (JStr s) => s
  | _ => ""
  end.

(** POST /api/annotations/:id/replies *)
Definition addReply (ctx : Ctx) (req : ReplyReq) : Handler :=
  catch_next
    (missing ← reply_text_missing (replyreq_text req);
     if missing : bool then
       mret (Json 400 (BMessage false "Reply text is required"))
     else
       found ← Annotation_findById (replyreq_id req);
       match found with
       | None => mret (Json 404 (BMessage false "Annotation not found"))
       | Some annotation =>
           owning ← PDF_findByRef (ann_pdf annotation);
           pdf ← deref owning;
           let hasAccess := hasAccess_annotate pdf (replyreq_user req) in
           if negb hasAccess || ann_isPrivate annotation then
             mret (Json 403 (BMessage false
                     "Not authorized to reply to this annotation"))
           else
             Annotation_pushReply ctx annotation
               {| reply_id := newId ctx;
                  reply_user := user_id (replyreq_user req);
                  reply_text := trim (text_of (replyreq_text req));
                  reply_createdAt := now ctx |};;
             updatedAnnotation ← Annotation_findByRef (ann_id annotation);
             mret (Json 201 (BAnnotation "Reply added successfully"
                               updatedAnnotation))
       end).

(** * Specification-level definitions *)

(** Running a handler: unfold the monad and the store primitives. *)
Ltac run_handler :=
  unfold catch_next, try_catch, when_, deref;
  unfold Annotation_findByIdAndUpdate, Annotation_create, Annotation_pushReply,
    PDF_save, Annotation_find, PDF_findByIdAndDelete, Annotation_deleteMany,
    Annotation_findByIdAndDelete, fs_existsSync, fs_unlink;
  unfold PDF_findById, PDF_findByRef, User_populate, Annotation_populate,
    Annotation_findById, Annotation_findByRef;
  unfold findById;
  unfold mbind, M_bind, mret, M_ret, gets, modify, throw;
  simpl.

(** An outcome that is a 403 response. *)
Definition denied (o : Outcome) : Prop := ∃ body, o = Json 403 body.

(** The read policy in the words of the specification: the document is
    public, or the viewer has an identity and it is the owner's. *)
Definition canView (D : PDF) (V : option User) : Prop :=
  pdf_isPublic D = true ∨ ∃ u, V = Some u ∧ user_id u = pdf_user D.

#[export] Instance canView_dec D V : Decision (canView D V).
Proof.
  unfold canView. destruct V as [u|].
  - destruct (decide (pdf_isPublic D = true)) as [|Hn]; [left; by left|].
    destruct (decide (user_id u = pdf_user D)) as [|Hu].
    + left. right. by exists u.
    + right. intros [?|(u' & [= <-] & ?)]; done.
  - destruct (decide (pdf_isPublic D = true)) as [|Hn]; [left; by left|].
    right. intros [?|(u' & ? & ?)]; done.
Defined.

(** The annotations the detail route returns for a document and a viewer. *)
Definition detail_annotations (D : PDF) (V : option User) (s : Store)
    : list Annotation :=
  let anns := filter (λ a, ann_pdf a = pdf_id D) (all_annotations s) in
  match V with
  | Some u =>
      if bool_decide (pdf_user D ≠ user_id u) then filter not_private anns
      else anns
  | None => filter not_private anns
  end.

(** The store after the detail route has saved the touched document. *)
Definition touched_store (ctx : Ctx) (D : PDF) (s : Store) : Store :=
  record (EvSavePdf (pdf_id D))
    (set_pdfs <[pdf_id D := stamp_updatedAt ctx (touch ctx D)]> s).

(** The read check let the request through. *)
Definition granted (o : Outcome) : Prop := ¬ denied o.

(** ** Sample data *)

Definition alice : User := {| user_id := "a11ce0000000000000000001"; user_role := "user" |}.
Definition bob : User := {| user_id := "b0b000000000000000000002"; user_role := "user" |}.
Definition root : User := {| user_id := "ad0000000000000000000003"; user_role := "admin" |}.

Definition alice_doc : UserDoc :=
  {| userdoc_name := "Alice"; userdoc_email := "alice@example.org" |}.

Definition sample_ctx : Ctx :=
  {| now := 1700000000000; newId := "f00000000000000000000000"; uuid := "uuid-1" |}.

Definition sample_pdf (isPublic : bool) : PDF :=
  {| pdf_id := "d0c000000000000000000001"; pdf_title := "Paper"; pdf_description := "";
     pdf_filename := "f1.pdf"; pdf_originalName := "paper.pdf";
     pdf_filePath := "uploads/pdfs/f1.pdf"; pdf_fileSize := 1024;
     pdf_mimeType := "application/pdf"; pdf_pageCount := None;
     pdf_user := "a11ce0000000000000000001"; pdf_isPublic := isPublic; pdf_tags := [];
     pdf_status := "ready"; pdf_accessCount := 7;
     pdf_lastAccessed := 1600000000000;
     pdf_createdAt := 1500000000000; pdf_updatedAt := 1500000000000 |}.

Definition sample_content : gmap string JValue :=
  {[ "text" := JStr "note";
     "coordinates" := JObj {[ "x" := JNum 10; "y" := JNum 20 ]} ]}.

Definition sample_annotation (id author : string) (isPrivate : bool) (t : Z)
    : Annotation :=
  {| ann_id := id; ann_pdf := "d0c000000000000000000001"; ann_user := author; ann_page := 1;
     ann_type := "text"; ann_content := applyContentDefaults sample_content;
     ann_isPrivate := isPrivate;
     ann_replies :=
       [ {| reply_id := "e00000000000000000000001"; reply_user := "b0b000000000000000000002"; reply_text := "ok";
            reply_createdAt := t + 1 |} ];
     ann_isResolved := false; ann_tags := [];
     ann_createdAt := t; ann_updatedAt := t |}.

(** One document of alice's with a public note of bob's and a private
    note of her own; the file is on disk. *)
Definition sample_store (isPublic : bool) : Store :=
  {| pdfs := {[ "d0c000000000000000000001" := sample_pdf isPublic ]};
     annotations :=
       {[ "a00000000000000000000001" := sample_annotation "a00000000000000000000001" "b0b000000000000000000002" false 1650000000000;
          "a00000000000000000000002" := sample_annotation "a00000000000000000000002" "a11ce0000000000000000001" true 1660000000000 ]};
     users := {[ "a11ce0000000000000000001" := alice_doc ]};
     files := {[ "uploads/pdfs/f1.pdf" ]};
     journal := [] |}.

(** ** Listings *)

(** The annotations a 200 response of the list route or of the detail
    route carries. *)
Definition listed (o : Outcome) : option (list Annotation) :=
  match o with
  | Json status (BAnnotations _ l) => if status =? 200 then Some l else None
  | Json status (BPdfDetail _ _ l) => if status =? 200 then Some l else None
  | _ => None
  end.

(** An annotation is stored and belongs to the document [id]. *)
Definition stored_for (id : string) (s : Store) (a : Annotation) : Prop :=
  a ∈ all_annotations s ∧ ann_pdf a = id.

(** A request of the list route with no filter in its query string. *)
Definition list_all (u : User) (pdfId : string) : ListReq :=
  {| list_user := u; list_pdfId := pdfId;
     list_page := None; list_type := None; list_isResolved := None |}.

(** ** References to a document *)

(** The stored annotations that reference the document [id], and the
    replies they carry. *)
Definition annotations_of (id : string) (s : Store) : list Annotation :=
  filter (λ a, ann_pdf a = id) (all_annotations s).

Definition replies_of (id : string) (s : Store) : list Reply :=
  mjoin (ann_replies <$> annotations_of id s).

(** The actor may mutate a document: owner or admin. *)
Definition owner_or_admin (owner : string) (u : User) : Prop :=
  owner = user_id u ∨ user_role u = "admin".

(** ** Sample upload *)

(** Stand-ins for the platform functions on the sample upload, whose form
    has no [tags] field, so that [JSON.parse] is never called, and whose
    file is named [paper.pdf]. *)
Definition sample_JSON_parse (s : string) : option JValue := None.
Definition sample_extname (s : string) : string := ".pdf".
Definition sample_join (dir name : string) : string :=
  "uploads/pdfs/" +:+ name.

Definition empty_store : Store :=
  {| pdfs := ∅; annotations := ∅; users := ∅; files := ∅; journal := [] |}.

(** An authenticated upload of a PDF of [size] bytes with only the file
    in the form. *)
Definition sample_upload (size : Z) : UploadReq :=
  {| upload_user := alice;
     upload_part :=
       Some {| part_fieldname := "pdf"; part_originalname := "paper.pdf";
               part_mimetype := "application/pdf"; part_size := size |};
     upload_title := None; upload_description := None;
     upload_tags := None; upload_isPublic := None |}.

(** The document the sample upload of 1024 bytes creates. *)
Definition sample_uploaded : PDF :=
  {| pdf_id := "f00000000000000000000000"; pdf_title := "paper.pdf"; pdf_description := "";
     pdf_filename := "uuid-1.pdf"; pdf_originalName := "paper.pdf";
     pdf_filePath := "uploads/pdfs/uuid-1.pdf"; pdf_fileSize := 1024;
     pdf_mimeType := "application/pdf"; pdf_pageCount := None;
     pdf_user := "a11ce0000000000000000001"; pdf_isPublic := true; pdf_tags := [];
     pdf_status := "ready"; pdf_accessCount := 0;
     pdf_lastAccessed := 1700000000000;
     pdf_createdAt := 1700000000000; pdf_updatedAt := 1700000000000 |}.

(** ** Sample requests on annotations *)

(** The store after an accepted update of the annotation [id]. *)
Definition updated_store (ctx : Ctx) (id : string) (a' : Annotation) (s : Store)
    : Store :=
  record (EvUpdateAnnotation id) (set_annotations <[id := a']> s).



(** A request to annotate [pdfId] with the content
    [{ text: "note", coordinates: { x: 10, y: 20 } }] and no style. *)
Definition note_request (u : User) (pdfId : string) (page : Q) (type : string)
    : CreateReq :=
  {| create_user := u; create_pdfId := Some pdfId; create_page := Some page;
     create_type := Some type; create_content := Some sample_content;
     create_isPrivate := None; create_tags := None |}.

(** The input content plus the two style defaults the specification
    names. *)
Definition note_with_color_and_opacity : gmap string JValue :=
  <["style" := JObj {[ "color" := JStr "#FFFF00"; "opacity" := JNum (1 # 2) ]}]>
    sample_content.

(** The input content plus every default of the schema. *)
Definition note_with_defaults : gmap string JValue :=
  {[ "text" := JStr "note";
     "coordinates" := JObj {[ "x" := JNum 10; "y" := JNum 20 ]};
     "points" := JArr [];
     "style" :=
       JObj {[ "color" := JStr "#FFFF00"; "opacity" := JNum (1 # 2);
               "strokeWidth" := JNum 2; "fontSize" := JNum 14;
               "fontFamily" := JStr "Arial" ]} ]}.

(** ** Well-formed stores *)

(** Each collection is keyed by the [_id] of its documents. *)
Definition store_wf (s : Store) : Prop :=
  map_Forall (λ k pdf, pdf_id pdf = k) (pdfs s) ∧
  map_Forall (λ k a, ann_id a = k) (annotations s).

Create HintDb wf discriminated.

(** * Further sample data *)

(** A title of 101 characters, one more than the schema allows. *)
Definition long_title : string :=
  "0123456789012345678901234567890123456789012345678901234567890123456789012345678901234567890123456789X".

(** The sample upload with a title field. *)
Definition titled_upload (title : string) : UploadReq :=
  {| upload_user := alice;
     upload_part :=
       Some {| part_fieldname := "pdf"; part_originalname := "paper.pdf";
               part_mimetype := "application/pdf"; part_size := 1024 |};
     upload_title := Some title; upload_description := None;
     upload_tags := None; upload_isPublic := None |}.

(** The sample store after the owner's user record was removed. *)
Definition ownerless_store : Store :=
  {| pdfs := pdfs (sample_store true);
     annotations := annotations (sample_store true);
     users := ∅;
     files := files (sample_store true);
     journal := [] |}.

(** A complete body for POST /api/annotations. *)
Definition create_request (u : User) (pdfId : string) (page : Q) (type : string)
    (content : gmap string JValue) (isPrivate : option JValue)
    (tags : option (list string)) : CreateReq :=
  {| create_user := u; create_pdfId := Some pdfId; create_page := Some page;
     create_type := Some type; create_content := Some content;
     create_isPrivate := isPrivate; create_tags := tags |}.

(** The reply the reply route pushes. *)
Definition new_reply (ctx : Ctx) (u : User) (text : string) : Reply :=
  {| reply_id := newId ctx; reply_user := user_id u;
     reply_text := trim text; reply_createdAt := now ctx |}.

(** Two annotations that differ at most in their replies and in the time
    of their last update. *)
Definition same_but_replies (a a' : Annotation) : Prop :=
  ann_id a' = ann_id a ∧ ann_pdf a' = ann_pdf a ∧ ann_user a' = ann_user a ∧
  ann_page a' = ann_page a ∧ ann_type a' = ann_type a ∧
  ann_content a' = ann_content a ∧ ann_isPrivate a' = ann_isPrivate a ∧
  ann_isResolved a' = ann_isResolved a ∧ ann_tags a' = ann_tags a ∧
  ann_createdAt a' = ann_createdAt a.

(** The fields of an annotation that no update changes. *)
Definition same_frame (a a' : Annotation) : Prop :=
  ann_id a' = ann_id a ∧ ann_pdf a' = ann_pdf a ∧ ann_user a' = ann_user a ∧
  ann_page a' = ann_page a ∧ ann_type a' = ann_type a ∧
  ann_replies a' = ann_replies a ∧ ann_createdAt a' = ann_createdAt a.

(** The annotation that bob's note on the sample document becomes. *)
Definition sample_note : Annotation :=
  {| ann_id := "f00000000000000000000000"; ann_pdf := "d0c000000000000000000001"; ann_user := "b0b000000000000000000002";
     ann_page := 1; ann_type := "text"; ann_content := note_with_defaults;
     ann_isPrivate := false; ann_replies := []; ann_isResolved := false;
     ann_tags := []; ann_createdAt := 1700000000000;
     ann_updatedAt := 1700000000000 |}.

(** * The remaining routes *)

(** The bodies of the routes below; each is sent with status 200.  A
    response of one of the earlier kinds is a [Plain] answer. *)
Record PdfSummary := {
  sum_id : string;
  sum_title : string;
  sum_description : string;
  sum_isPublic : bool;
  sum_tags : list string;
  sum_updatedAt : Z
}.

(** An entry of the owner's listing. *)
Record OwnedItem := {
  own_id : string;
  own_title : string;
  own_description : string;
  own_filename : string;
  own_originalName : string;
  own_fileSize : Z;
  own_pageCount : option Z;
  own_isPublic : bool;
  own_tags : list string;
  own_status : string;
  own_annotationCount : nat;
  own_accessCount : Z;
  own_lastAccessed : Z;
  own_createdAt : Z;
  own_updatedAt : Z
}.

(** An entry of the public listing. *)
Record PublicItem := {
  pub_id : string;
  pub_title : string;
  pub_description : string;
  pub_filename : string;
  pub_originalName : string;
  pub_fileSize : Z;
  pub_pageCount : option Z;
  pub_tags : list string;
  pub_status : string;
  pub_user : string;
  pub_annotationCount : nat;
  pub_accessCount : Z;
  pub_createdAt : Z
}.

Inductive Answer :=
  | Plain (o : Outcome)
  | PdfUpdated (pdf : PdfSummary)
  | OwnedPage (count total : nat) (page pages : Z) (pdfs : list OwnedItem)
  | PublicPage (count total : nat) (page pages : Z) (pdfs : list PublicItem)
  | AnnotationPage (count total : nat) (page pages : Z)
                   (annotations : list Annotation).

(** [try { body } catch (error) { next(error) }] for these routes. *)
Definition answer (body : M Answer) : Store → Answer * Store :=
  λ s,
    match body s with
    | (inr r, s') => (r, s')
    | (inl e, s') => (Plain (Next e), s')
    end.

Definition reply_json (status : Z) (success : bool) (message : string) : Answer :=
  Plain (Json status (BMessage success message)).

(** ** PUT /api/pdfs/:id *)

(** The body of the update: [title] and [description] arrive as strings,
    [tags] and [isPublic] as the handler inspects them. *)
Record PdfUpdateReq := {
  pdfupd_user : User;
  pdfupd_id : string;
  pdfupd_title : option string;
  pdfupd_description : option string;
  pdfupd_tags : option JValue;
  pdfupd_isPublic : option JValue
}.

(** The update document of [PDF.findByIdAndUpdate]. *)
Record PdfUpdate := {
  pu_title : option string;
  pu_description : option string;
  pu_tags : option (list JValue);
  pu_isPublic : option bool
}.

(** [if (title) ...; if (description !== undefined) ...;
     if (tags) updateFields.tags = Array.isArray(tags) ? tags : [];
     if (typeof isPublic === 'boolean') ...] *)
Definition pdf_updateFields (req : PdfUpdateReq) : PdfUpdate :=
  {| pu_title := nonempty (pdfupd_title req);
     pu_description := pdfupd_description req;
     pu_tags :=
       match pdfupd_tags req with
       | Some v =>
           if truthy v then
             Some (match v with JArr l => l | _ => [] end)
           else None
       | None => None
       end;
     pu_isPublic := if_boolean (pdfupd_isPublic req) |}.

(** The update after the cast and the setters of the schema: tags are
    strings, and title, description and tags are trimmed.  [None] is a
    cast error. *)
Definition cast_pdf_update (up : PdfUpdate)
    : option (option string * option string * option (list string) * option bool) :=
  match pu_tags up with
  | Some l =>
      tags ← castStringArray (JArr l);
      Some (trim <$> pu_title up, trim <$> pu_description up,
            Some (trim_all tags), pu_isPublic up)
  | None =>
      Some (trim <$> pu_title up, trim <$> pu_description up, None,
            pu_isPublic up)
  end.

Definition apply_pdf_update (ctx : Ctx)
    (title description : option string) (tags : option (list string))
    (isPublic : option bool) (pdf : PDF) : PDF :=
  {| pdf_id := pdf_id pdf; pdf_title := default (pdf_title pdf) title;
     pdf_description := default (pdf_description pdf) description;
     pdf_filename := pdf_filename pdf;
     pdf_originalName := pdf_originalName pdf; pdf_filePath := pdf_filePath pdf;
     pdf_fileSize := pdf_fileSize pdf; pdf_mimeType := pdf_mimeType pdf;
     pdf_pageCount := pdf_pageCount pdf; pdf_user := pdf_user pdf;
     pdf_isPublic := default (pdf_isPublic pdf) isPublic;
     pdf_tags := default (pdf_tags pdf) tags;
     pdf_status := pdf_status pdf; pdf_accessCount := pdf_accessCount pdf;
     pdf_lastAccessed := pdf_lastAccessed pdf;
     pdf_createdAt := pdf_createdAt pdf; pdf_updatedAt := now ctx |}.

(** [PDF.findByIdAndUpdate(id, update, { new: true, runValidators: true })]:
    the validators run on the paths the update sets; the write is
    journalled as a save of the document. *)
Definition PDF_findByIdAndUpdate (ctx : Ctx) (id : string) (up : PdfUpdate)
    : M (option PDF) :=
  match cast_pdf_update up with
  | None => throw (CastError "tags")
  | Some (title, description, tags, isPublic) =>
      if negb (from_option (λ t, present t && (str_len t <=? 100)) true title
               && from_option (λ d, str_len d <=? 500) true description
               && from_option (tags_valid 30) true tags)
      then throw (ValidationError "PDF")
      else
        found ← PDF_findById id;
        match found with
        | None => mret None
        | Some pdf =>
            let pdf' := apply_pdf_update ctx title description tags isPublic pdf in
            modify (λ s, record (EvSavePdf id) (set_pdfs <[id := pdf']> s));;
            mret (Some pdf')
        end
  end.

(** PUT /api/pdfs/:id *)
Definition updatePdf (ctx : Ctx) (req : PdfUpdateReq) : Store → Answer * Store :=
  answer
    (found ← PDF_findById (pdfupd_id req);
     match found with
     | None => mret (reply_json 404 false "PDF not found")
     | Some pdf =>
         if not_owner_nor_admin (pdf_user pdf) (pdfupd_user req) then
           mret (reply_json 403 false "Not authorized to update this PDF")
         else
           updated ← PDF_findByIdAndUpdate ctx (pdfupd_id req)
                       (pdf_updateFields req);
           pdf ← deref updated;
           mret (PdfUpdated
                   {| sum_id := pdf_id pdf; sum_title := pdf_title pdf;
                      sum_description := pdf_description pdf;
                      sum_isPublic := pdf_isPublic pdf;
                      sum_tags := pdf_tags pdf;
                      sum_updatedAt := pdf_updatedAt pdf |})
     end).

(** ** DELETE /api/annotations/:id/replies/:replyId *)

Record DeleteReplyReq := {
  delreply_user : User;
  delreply_id : string;
  delreply_replyId : string
}.

(** [annotation.replies.id(replyId)] *)
Definition replies_id (rs : list Reply) (replyId : string) : option Reply :=
  head (filter (λ r, reply_id r = replyId) rs).

(** [reply.remove()]: the parent array without the subdocument of that
    id. *)
Definition replies_remove (rs : list Reply) (replyId : string) : list Reply :=
  filter (λ r, reply_id r ≠ replyId) rs.

(** [annotation.save()] after its replies were changed: validate, then
    write. *)
Definition Annotation_saveReplies (ctx : Ctx) (a : Annotation) (rs : list Reply)
    : M unit :=
  let a' := with_replies ctx a rs in
  if negb (annotation_doc_valid a') then throw (ValidationError "Annotation")
  else
    modify (λ s, record (EvSaveAnnotation (ann_id a))
                   (set_annotations <[ann_id a := a']> s)).

(** [reply.user.toString() !== req.user.id &&
     annotation.user.toString() !== req.user.id &&
     req.user.role !== 'admin'] *)
Definition may_not_delete_reply (r : Reply) (a : Annotation) (u : User) : bool :=
  bool_decide (reply_user r ≠ user_id u) &&
  bool_decide (ann_user a ≠ user_id u) &&
  bool_decide (user_role u ≠ "admin").

(** DELETE /api/annotations/:id/replies/:replyId *)
Definition deleteReply (ctx : Ctx) (req : DeleteReplyReq) : Handler :=
  catch_next
    (found ← Annotation_findById (delreply_id req);
     match found with
     | None => mret (Json 404 (BMessage false "Annotation not found"))
     | Some annotation =>
         match replies_id (ann_replies annotation) (delreply_replyId req) with
         | None => mret (Json 404 (BMessage false "Reply not found"))
         | Some reply =>
             if may_not_delete_reply reply annotation (delreply_user req) then
               mret (Json 403 (BMessage false
                       "Not authorized to delete this reply"))
             else
               Annotation_saveReplies ctx annotation
                 (replies_remove (ann_replies annotation) (reply_id reply));;
               mret (Json 200 (BMessage true "Reply deleted successfully"))
         end
     end).

(** The actor may delete a reply: its author, the author of the
    annotation, or an admin. *)
Definition may_delete_reply (r : Reply) (a : Annotation) (u : User) : Prop :=
  reply_user r = user_id u ∨ ann_user a = user_id u ∨ user_role u = "admin".

(** Alice updates her private sample document: an empty title, a
    visibility given as the string 'true' and tags given as one string. *)
Definition sample_pdf_update : PdfUpdateReq :=
  {| pdfupd_user := alice; pdfupd_id := "d0c000000000000000000001"; pdfupd_title := Some "";
     pdfupd_description := Some "Draft"; pdfupd_tags := Some (JStr "draft");
     pdfupd_isPublic := Some (JStr "true") |}.

Definition sample_pdf_summary : PdfSummary :=
  {| sum_id := "d0c000000000000000000001"; sum_title := "Paper"; sum_description := "Draft";
     sum_isPublic := false; sum_tags := []; sum_updatedAt := 1700000000000 |}.

(** ** The listings: GET /api/pdfs, GET /api/pdfs/public, GET /api/annotations/my *)








(** [.sort({ createdAt: -1 })] on documents. *)
Definition pdf_newest_first (a b : PDF) : Prop :=
  pdf_createdAt b ≤ pdf_createdAt a.

#[export] Instance pdf_newest_first_dec a b : Decision (pdf_newest_first a b) :=
  Z_le_dec (pdf_createdAt b) (pdf_createdAt a).

(** [.skip(skip).limit(limit)] on a sorted result: a negative limit
    counts as its absolute value, and 0 as no limit. *)
Definition page_of {A} (skip limit : Z) (l : list A) : list A :=
  let rest := drop (Z.to_nat skip) l in
  if limit =? 0 then rest else take (Z.to_nat (Z.abs limit)) rest.

(** The database refuses a negative skip. *)
Definition check_skip (skip : Z) : M unit :=
  if skip <? 0 then throw (PlainError "Skip value must be non-negative")
  else mret tt.


(** [Math.ceil(total / limit)], for a limit that is not 0. *)
Definition Math_ceil_div (total : nat) (limit : Z) : Z :=
  - ((- Z.of_nat total) / limit).






(** The query string of GET /api/annotations/my. *)
Record MyReq := {
  my_user : User;
  my_page : option string;
  my_limit : option string;
  my_type : option string;
  my_isResolved : option string
}.

(** The filter of GET /api/annotations/my. *)
Definition my_matches (req : MyReq) (a : Annotation) : bool :=
  bool_decide (ann_user a = user_id (my_user req)) &&
  from_option (λ t, String.eqb (ann_type a) t) true (nonempty (my_type req)) &&
  from_option (λ r, Bool.eqb (ann_isResolved a) (String.eqb r "true")) true
    (my_isResolved req).

Definition my_annotations (req : MyReq) (s : Store) : list Annotation :=
  filter (λ a, my_matches req a) (all_annotations s).

(** GET /api/annotations/my *)
Definition listMyAnnotations (req : MyReq) : Store → Answer * Store :=
  answer
    (let page := parseInt_or (my_page req) 1 in
     let limit := parseInt_or (my_limit req) 20 in
     let skip := (page - 1) * limit in
     total ← gets (λ s, length (my_annotations req s));
     check_skip skip;;
     annotations ← gets (λ s,
       page_of skip limit (merge_sort newest_first (my_annotations req s)));
     mret (AnnotationPage (length annotations) total page
             (Math_ceil_div total limit) annotations)).

Section Listings.

(** The regular expression of a search, case-insensitive: the test it
    performs on a string, or [None] when the pattern is refused. *)
Variable regex_i : string → option (string → bool).





End Listings.



(** The file multer stored for the sample upload, and a store that holds
    it on disk. *)
Definition sample_file : File :=
  {| file_originalname := "paper.pdf"; file_mimetype := "application/pdf";
     file_filename := "uuid-1.pdf"; file_path := "uploads/pdfs/uuid-1.pdf";
     file_size := 1024 |}.

Definition stored_file_store (file : File) : Store :=
  {| pdfs := ∅; annotations := ∅; users := ∅;
     files := {[ file_path file ]}; journal := [] |}.
(** * Properties *)

Lemma is_lower_hex_is_hex c : is_lower_hex c = true → is_hex c = true.
Proof.
  destruct c as [[] [] [] [] [] [] [] []]; vm_compute; done.
Qed.

(** An id as the database prints it passes the cast. *)
Lemma ObjectId_hex_is_ObjectId id : ObjectId_hex id = true → is_ObjectId id = true.
Proof.
  unfold ObjectId_hex, is_ObjectId. intros H.
  apply andb_prop in H as [Hlen Hhex]. rewrite Hlen. simpl.
  apply orb_true_intro. left. apply forallb_forall. intros c Hc.
  rewrite forallb_forall in Hhex. by apply is_lower_hex_is_hex, Hhex.
Qed.

Lemma hasAccess_file_canView D V : hasAccess_file D V = true ↔ canView D V.
Proof.
  unfold hasAccess_file, canView. destruct (pdf_isPublic D); simpl.
  - split; [by left|done].
  - destruct V as [u|].
    + rewrite bool_decide_eq_true. split.
      * intros Hu. right. by exists u.
      * intros [?|(u' & [= <-] & ?)]; done.
    + split; [done|]. intros [?|(u' & ? & ?)]; done.
Qed.

Lemma getPdfFile_outcome req s D :
  pdfs s !! pdfreq_id req = Some D →
  getPdfFile req s =
    if hasAccess_file D (pdfreq_user req) then
      if bool_decide (pdf_filePath D ∈ files s) then
        (Stream "application/pdf"
           ("inline; filename=" +:+ double_quote
              +:+ pdf_originalName D +:+ double_quote)
           (pdf_fileSize D) (pdf_filePath D), s)
      else (Json 404 (BMessage false "PDF file not found on server"), s)
    else (Json 403 (BMessage false "Not authorized to access this PDF"), s).
Proof.
  intros HD. unfold getPdfFile. run_handler. rewrite HD.
  destruct (hasAccess_file D (pdfreq_user req)); simpl; [|done].
  by destruct (bool_decide (pdf_filePath D ∈ files s)).
Qed.

Lemma touch_valid ctx D : pdf_doc_valid (touch ctx D) = pdf_doc_valid D.
Proof. reflexivity. Qed.

Lemma getPdf_outcome ctx req s D owner :
  pdfs s !! pdfreq_id req = Some D →
  users s !! pdf_user D = Some owner →
  getPdf ctx req s =
    if decide (canView D (pdfreq_user req)) then
      if pdf_doc_valid D then
        (Json 200 (BPdfDetail (stamp_updatedAt ctx (touch ctx D)) owner
                     (detail_annotations D (pdfreq_user req) s)),
         touched_store ctx D s)
      else (Next (ValidationError "PDF"), s)
    else (Json 403 (BMessage false "Not authorized to access this PDF"), s).
Proof.
  intros HD Ho. unfold getPdf, hasAccess_detail, visible_annotations.
  run_handler. rewrite HD, Ho. unfold detail_annotations, touched_store.
  rewrite touch_valid.
  destruct (decide (canView D (pdfreq_user req))) as [Hv|Hv];
    unfold canView in Hv; destruct (pdf_isPublic D) eqn:Hpub; simpl.
  - destruct (pdf_doc_valid D); simpl; [|done].
    destruct (pdfreq_user req) as [u|]; simpl; [|done].
    by destruct (bool_decide (pdf_user D ≠ user_id u)).
  - destruct Hv as [?|(u & -> & Hu)]; [done|]. simpl.
    rewrite bool_decide_true by done. simpl.
    destruct (pdf_doc_valid D); simpl; [|done].
    rewrite (bool_decide_false (pdf_user D ≠ user_id u)) by (intros ?; done).
    done.
  - destruct Hv. by left.
  - destruct (pdfreq_user req) as [u|]; simpl; [|done].
    rewrite bool_decide_false; [done|].
    intros Hu. apply Hv. right. by exists u.
Qed.

(** A detail read of a public document whose owner's record is gone: the
    touched document is saved, then building the response throws. *)
Lemma getPdf_owner_gone ctx req s D :
  pdfs s !! pdfreq_id req = Some D →
  users s !! pdf_user D = None →
  pdf_isPublic D = true →
  pdf_doc_valid D = true →
  getPdf ctx req s =
    (Next (TypeError "Cannot read properties of null"), touched_store ctx D s).
Proof.
  intros HD Ho Hpub Hvalid. unfold getPdf, hasAccess_detail, visible_annotations.
  run_handler. rewrite HD, Ho, Hpub, touch_valid, Hvalid. simpl.
  by destruct (pdfreq_user req).
Qed.

(** A read of an id under which nothing is stored: 404 when the id is
    an ObjectId, a cast error otherwise. *)
Lemma getPdf_miss ctx req s :
  pdfs s !! pdfreq_id req = None →
  getPdf ctx req s =
    (if is_ObjectId (pdfreq_id req)
     then Json 404 (BMessage false "PDF not found")
     else Next (CastError "_id"), s).
Proof.
  intros HD. unfold getPdf. run_handler. rewrite HD.
  by destruct (is_ObjectId (pdfreq_id req)).
Qed.

Lemma getPdfFile_miss req s :
  pdfs s !! pdfreq_id req = None →
  getPdfFile req s =
    (if is_ObjectId (pdfreq_id req)
     then Json 404 (BMessage false "PDF not found")
     else Next (CastError "_id"), s).
Proof.
  intros HD. unfold getPdfFile. run_handler. rewrite HD.
  by destruct (is_ObjectId (pdfreq_id req)).
Qed.

(** The detail route answers 200 only for a stored, valid document whose
    owner's record exists and which the viewer may read. *)
Lemma getPdf_success_inv ctx req s body :
  (getPdf ctx req s).1 = Json 200 body →
  ∃ D owner,
    pdfs s !! pdfreq_id req = Some D ∧
    users s !! pdf_user D = Some owner ∧
    pdf_doc_valid D = true ∧
    canView D (pdfreq_user req).
Proof.
  destruct (pdfs s !! pdfreq_id req) as [D|] eqn:HD;
    [|rewrite getPdf_miss by done; by destruct (is_ObjectId (pdfreq_id req))].
  destruct (users s !! pdf_user D) as [owner|] eqn:Ho.
  - rewrite (getPdf_outcome _ _ _ _ _ HD Ho).
    destruct (decide (canView D (pdfreq_user req))) as [Hv|Hv]; [|done].
    destruct (pdf_doc_valid D) eqn:Hvalid; [|done].
    intros _. by exists D, owner.
  - unfold getPdf, hasAccess_detail, visible_annotations. run_handler.
    rewrite HD, Ho, touch_valid.
    destruct (pdf_isPublic D); simpl.
    + destruct (pdf_doc_valid D); simpl; [|done].
      by destruct (pdfreq_user req).
    + by destruct (pdfreq_user req).
Qed.

Lemma getPdfFile_store req s : (getPdfFile req s).2 = s.
Proof.
  destruct (pdfs s !! pdfreq_id req) as [D|] eqn:HD.
  - rewrite (getPdfFile_outcome _ _ _ HD).
    by repeat case_match.
  - rewrite getPdfFile_miss by done. by destruct (is_ObjectId (pdfreq_id req)).
Qed.

(** The detail route changes the store only when it answers 200, or when
    it has saved the touched document and then fails to build the
    response. *)
Lemma getPdf_json_store ctx req s status body :
  (getPdf ctx req s).1 = Json status body → status ≠ 200 →
  (getPdf ctx req s).2 = s.
Proof.
  destruct (pdfs s !! pdfreq_id req) as [D|] eqn:HD;
    [|rewrite getPdf_miss by done; by destruct (is_ObjectId (pdfreq_id req))].
  destruct (users s !! pdf_user D) as [owner|] eqn:Ho.
  - rewrite (getPdf_outcome _ _ _ _ _ HD Ho).
    destruct (decide (canView D (pdfreq_user req))) as [Hv|Hv]; [|done].
    destruct (pdf_doc_valid D); [|done]. simpl. by intros [= <- _].
  - unfold getPdf, hasAccess_detail, visible_annotations. run_handler.
    rewrite HD, Ho, touch_valid.
    destruct (pdf_isPublic D); simpl.
    + destruct (pdf_doc_valid D); simpl; [|done].
      by destruct (pdfreq_user req).
    + by destruct (pdfreq_user req).
Qed.

(** C1.  For a stored document D and a viewer V, each of the two read
    routes lets the request past its access check exactly when D is public
    or V is authenticated with the owner's id; for an anonymous viewer
    that is exactly when D is public. *)
Theorem read_check_iff_canView ctx req s D owner :
  pdfs s !! pdfreq_id req = Some D →
  users s !! pdf_user D = Some owner →
  (granted (getPdf ctx req s).1 ↔ canView D (pdfreq_user req)) ∧
  (granted (getPdfFile req s).1 ↔ canView D (pdfreq_user req)) ∧
  (pdfreq_user req = None →
     (granted (getPdf ctx req s).1 ↔ pdf_isPublic D = true) ∧
     (granted (getPdfFile req s).1 ↔ pdf_isPublic D = true)).
Proof.
  intros HD Ho.
  assert (Hdetail : granted (getPdf ctx req s).1 ↔ canView D (pdfreq_user req)).
  { rewrite (getPdf_outcome _ _ _ _ _ HD Ho). unfold granted, denied.
    destruct (decide (canView D (pdfreq_user req))) as [Hv|Hv]; simpl.
    - split; [done|]. intros _ [body Hb]. by destruct (pdf_doc_valid D).
    - split; [|done]. intros Hg. destruct Hg. by eexists. }
  assert (Hfile : granted (getPdfFile req s).1 ↔ canView D (pdfreq_user req)).
  { rewrite (getPdfFile_outcome _ _ _ HD), <- hasAccess_file_canView.
    unfold granted, denied.
    destruct (hasAccess_file D (pdfreq_user req)); simpl.
    - split; [done|]. intros _ [body Hb]. by case_match.
    - split; [|done]. intros Hg. destruct Hg. by eexists. }
  split; [done|]. split; [done|]. intros Hanon.
  assert (Hpub : canView D (pdfreq_user req) ↔ pdf_isPublic D = true).
  { rewrite Hanon. unfold canView. split; [|by left].
    intros [?|(u & ? & ?)]; done. }
  by rewrite Hdetail, Hfile, Hpub.
Qed.

Lemma read_check_iff_canView_witness :
  (granted (getPdf sample_ctx
              {| pdfreq_id := "d0c000000000000000000001"; pdfreq_user := None |}
              (sample_store true)).1 ↔
   canView (sample_pdf true) None) ∧
  (granted (getPdfFile {| pdfreq_id := "d0c000000000000000000001"; pdfreq_user := None |}
              (sample_store true)).1 ↔
   canView (sample_pdf true) None) ∧
  (@None User = None →
     (granted (getPdf sample_ctx
                 {| pdfreq_id := "d0c000000000000000000001"; pdfreq_user := None |}
                 (sample_store true)).1 ↔ true = true) ∧
     (granted (getPdfFile {| pdfreq_id := "d0c000000000000000000001"; pdfreq_user := None |}
                 (sample_store true)).1 ↔ true = true)).
Proof.
  apply (read_check_iff_canView sample_ctx
           {| pdfreq_id := "d0c000000000000000000001"; pdfreq_user := None |}
           (sample_store true) (sample_pdf true) alice_doc);
    reflexivity.
Defined.

(** C4, counterexample.  An anonymous viewer streams the file of a public
    document: the read is authorized and succeeds, and the access counter
    and the last-accessed time are what they were. *)
Lemma file_read_does_not_touch :
  let req := {| pdfreq_id := "d0c000000000000000000001"; pdfreq_user := None |} in
  let s := sample_store true in
  (getPdfFile req s).1 =
    Stream "application/pdf"
      ("inline; filename=" +:+ double_quote +:+ "paper.pdf" +:+ double_quote)
      1024 "uploads/pdfs/f1.pdf" ∧
  pdf_accessCount <$> pdfs s !! "d0c000000000000000000001" = Some 7 ∧
  pdf_accessCount <$> pdfs (getPdfFile req s).2 !! "d0c000000000000000000001" = Some 7 ∧
  pdf_lastAccessed <$> pdfs (getPdfFile req s).2 !! "d0c000000000000000000001"
    = Some 1600000000000.
Proof. vm_compute. done. Qed.

(** C4, amended.  An authorized read of the detail of a document (a
    stored document that passes its schema's validators, as every document
    the routes store does) is answered 200, increments the stored access
    counter by exactly one and sets the last-accessed time to the current
    time, leaving every other document and every annotation as it was; a
    detail read answered with another status, 404 or 403, changes nothing,
    and these are the answers for an ObjectId under which no document is
    stored and for a viewer who may not read the document; a read of the
    file stream never changes the store. *)
Theorem detail_read_touches_once ctx req s :
  (getPdfFile req s).2 = s ∧
  (∀ status body,
     (getPdf ctx req s).1 = Json status body → status ≠ 200 →
     (getPdf ctx req s).2 = s) ∧
  (ObjectId_hex (pdfreq_id req) = true →
   pdfs s !! pdfreq_id req = None →
     getPdf ctx req s = (Json 404 (BMessage false "PDF not found"), s)) ∧
  (∀ D owner,
     pdfs s !! pdfreq_id req = Some D →
     pdf_id D = pdfreq_id req →
     users s !! pdf_user D = Some owner →
     (¬ canView D (pdfreq_user req) →
        getPdf ctx req s =
          (Json 403 (BMessage false "Not authorized to access this PDF"), s)) ∧
     (canView D (pdfreq_user req) →
        pdf_doc_valid D = true →
        let s' := (getPdf ctx req s).2 in
        (∃ body, (getPdf ctx req s).1 = Json 200 body) ∧
        (∃ D', pdfs s' !! pdfreq_id req = Some D' ∧
               pdf_accessCount D' = pdf_accessCount D + 1 ∧
               pdf_lastAccessed D' = now ctx) ∧
        (∀ k, k ≠ pdfreq_id req → pdfs s' !! k = pdfs s !! k) ∧
        annotations s' = annotations s)).
Proof.
  split; [apply getPdfFile_store|].
  split; [apply getPdf_json_store|].
  split.
  { intros Hhex HD. rewrite getPdf_miss by done.
    by rewrite ObjectId_hex_is_ObjectId. }
  intros D owner HD Hid Ho. rewrite (getPdf_outcome _ _ _ _ _ HD Ho).
  split; [intros Hv | intros Hv Hvalid].
  - by rewrite decide_False.
  - rewrite decide_True, Hvalid by done. simpl. rewrite Hid.
    split; [by eexists|]. split.
    + eexists. rewrite lookup_insert_eq. split; [done|]. by simpl.
    + split; [|done]. intros k Hk. by rewrite lookup_insert_ne.
Qed.

Lemma detail_read_touches_once_witness :
  let req := {| pdfreq_id := "d0c000000000000000000001"; pdfreq_user := Some bob |} in
  ∃ D', pdfs (getPdf sample_ctx req (sample_store true)).2 !! "d0c000000000000000000001" = Some D' ∧
        pdf_accessCount D' = 7 + 1 ∧
        pdf_lastAccessed D' = 1700000000000.
Proof.
  intros req.
  destruct (detail_read_touches_once sample_ctx req (sample_store true))
    as (_ & _ & _ & H).
  destruct (H (sample_pdf true) alice_doc) as [_ Hok];
    [reflexivity | reflexivity | reflexivity |].
  destruct Hok as (_ & Hcount & _); [by left | reflexivity |].
  exact Hcount.
Defined.

Lemma elem_of_merge_sort_newest (l : list Annotation) a :
  a ∈ merge_sort newest_first l ↔ a ∈ l.
Proof. by rewrite merge_sort_Permutation. Qed.

Lemma ann_matches_unfiltered pdfId (priv : option bool) a :
  ann_matches {| q_pdf := pdfId; q_isPrivate := priv; q_page := None;
                 q_type := None; q_isResolved := None |} a
  ↔ ann_pdf a = pdfId ∧ (∀ b, priv = Some b → ann_isPrivate a = b).
Proof.
  unfold ann_matches. simpl. rewrite !andb_true_r, andb_True, bool_decide_spec.
  destruct priv as [b|].
  - rewrite Is_true_true, Bool.eqb_true_iff. split.
    + intros [Hp Hb]. split; [done|]. by intros b' [= <-].
    + intros [Hp Hb]. split; [done|]. by apply Hb.
  - split.
    + intros [Hp _]. split; [done|]. by intros b' [=].
    + intros [Hp _]. done.
Qed.

Lemma listAnnotations_all u pdfId s D :
  pdfs s !! pdfId = Some D →
  listAnnotations (list_all u pdfId) s =
    if hasAccess_annotate D u then
      let anns :=
        merge_sort newest_first
          (filter (λ a, ann_matches
                     {| q_pdf := pdfId;
                        q_isPrivate :=
                          if bool_decide (pdf_user D ≠ user_id u)
                          then Some false else None;
                        q_page := None; q_type := None;
                        q_isResolved := None |} a)
             (all_annotations s)) in
      (Json 200 (BAnnotations (length anns) anns), s)
    else
      (Json 403 (BMessage false
                   "Not authorized to view annotations for this PDF"), s).
Proof.
  intros HD. unfold listAnnotations. run_handler. rewrite HD.
  by destruct (hasAccess_annotate D u).
Qed.

Lemma detail_annotations_spec D V s a :
  a ∈ detail_annotations D V s ↔
  stored_for (pdf_id D) s a ∧
  ((∃ u, V = Some u ∧ user_id u = pdf_user D) ∨ ann_isPrivate a = false).
Proof.
  unfold detail_annotations, stored_for, not_private.
  destruct V as [u|].
  - case_bool_decide as Hu; rewrite ?list_elem_of_filter.
    + split.
      * intros (? & ? & ?). split; [done|]. by right.
      * intros ((? & ?) & [(u' & [= <-] & ?)|?]); done.
    + split.
      * intros (? & ?). split; [done|]. left. exists u.
        split; [done|]. by destruct (decide (user_id u = pdf_user D)) as [|Hne];
          [|destruct Hu; congruence].
      * intros ((? & ?) & _). done.
  - rewrite !list_elem_of_filter. split.
    + intros (? & ? & ?). split; [done|]. by right.
    + intros ((? & ?) & [(u' & ? & ?)|?]); done.
Qed.

(** C5.  Listing the annotations of a document D applies the visibility
    predicate per item.  Through the list route, D's owner receives every
    annotation stored for D, and an authenticated viewer who is not the
    owner receives, when D is public, exactly those that are not private.
    Through the detail route the same holds for every viewer with read
    access, and an anonymous viewer of a public D is answered and receives
    exactly the annotations of D that are not private. *)
Theorem annotation_listing_visibility s D :
  (∀ u pdfId,
     pdfs s !! pdfId = Some D →
     (user_id u = pdf_user D →
        ∃ anns, listed (listAnnotations (list_all u pdfId) s).1 = Some anns ∧
                ∀ a, a ∈ anns ↔ stored_for pdfId s a) ∧
     (user_id u ≠ pdf_user D → pdf_isPublic D = true →
        ∃ anns, listed (listAnnotations (list_all u pdfId) s).1 = Some anns ∧
                ∀ a, a ∈ anns ↔ stored_for pdfId s a ∧ ann_isPrivate a = false)) ∧
  (∀ ctx req owner,
     pdfs s !! pdfreq_id req = Some D →
     pdf_id D = pdfreq_id req →
     users s !! pdf_user D = Some owner →
     pdf_doc_valid D = true →
     canView D (pdfreq_user req) →
     ∃ anns, listed (getPdf ctx req s).1 = Some anns ∧
       ((∃ u, pdfreq_user req = Some u ∧ user_id u = pdf_user D) →
          ∀ a, a ∈ anns ↔ stored_for (pdfreq_id req) s a) ∧
       ((∃ u, pdfreq_user req = Some u ∧ user_id u ≠ pdf_user D) →
          ∀ a, a ∈ anns ↔ stored_for (pdfreq_id req) s a ∧ ann_isPrivate a = false) ∧
       (pdfreq_user req = None →
          pdf_isPublic D = true ∧
          ∀ a, a ∈ anns ↔ stored_for (pdfreq_id req) s a ∧ ann_isPrivate a = false)).
Proof.
  split.
  - intros u pdfId HD. rewrite (listAnnotations_all _ _ _ _ HD).
    unfold hasAccess_annotate, stored_for. split.
    + intros Hu. rewrite bool_decide_true by done. simpl.
      rewrite bool_decide_false by (intros Hne; by destruct Hne).
      eexists. split; [done|]. intros a.
      rewrite elem_of_merge_sort_newest, list_elem_of_filter,
        ann_matches_unfiltered.
      split; [by intros ((? & _) & ?)|].
      intros (? & ?). split; [|done]. split; [done|]. by intros b [=].
    + intros Hu Hpub. rewrite Hpub, orb_true_r. simpl.
      rewrite bool_decide_true by (intros Heq; by destruct Hu).
      eexists. split; [done|]. intros a.
      rewrite elem_of_merge_sort_newest, list_elem_of_filter,
        ann_matches_unfiltered.
      split.
      * intros ((? & Hb) & ?). split; [done|]. by apply Hb.
      * intros ((? & ?) & ?). split; [|done]. split; [done|]. by intros b [= <-].
  - intros ctx req owner HD Hid Ho Hvalid Hv.
    rewrite (getPdf_outcome _ _ _ _ _ HD Ho), decide_True, Hvalid by done.
    simpl.
    eexists. split; [done|]. rewrite <- Hid.
    split; [|split].
    + intros Hown a. rewrite detail_annotations_spec.
      split; [by intros (? & _)|]. intros ?. split; [done|]. by left.
    + intros (u & Hu & Hne) a. rewrite detail_annotations_spec.
      split.
      * intros (? & [(u' & Hu' & ?)|?]); [|done].
        rewrite Hu in Hu'. by injection Hu' as <-.
      * intros (? & ?). split; [done|]. by right.
    + intros Hanon. split.
      * destruct Hv as [?|(u & Hu & _)]; [done|]. by rewrite Hanon in Hu.
      * intros a. rewrite detail_annotations_spec. split.
        -- intros (? & [(u' & Hu' & ?)|?]); [|done]. by rewrite Hanon in Hu'.
        -- intros (? & ?). split; [done|]. by right.
Qed.

Lemma annotation_listing_visibility_witness :
  (∃ anns,
     listed (listAnnotations (list_all alice "d0c000000000000000000001") (sample_store true)).1
       = Some anns ∧
     ∀ a, a ∈ anns ↔ stored_for "d0c000000000000000000001" (sample_store true) a) ∧
  (∃ anns,
     listed (listAnnotations (list_all bob "d0c000000000000000000001") (sample_store true)).1
       = Some anns ∧
     ∀ a, a ∈ anns ↔ stored_for "d0c000000000000000000001" (sample_store true) a ∧
                      ann_isPrivate a = false) ∧
  (∃ anns,
     listed (getPdf sample_ctx {| pdfreq_id := "d0c000000000000000000001"; pdfreq_user := None |}
               (sample_store true)).1 = Some anns ∧
     ∀ a, a ∈ anns ↔ stored_for "d0c000000000000000000001" (sample_store true) a ∧
                      ann_isPrivate a = false).
Proof.
  destruct (annotation_listing_visibility (sample_store true) (sample_pdf true))
    as [Hlist Hdetail].
  split; [|split].
  - destruct (Hlist alice "d0c000000000000000000001") as [Hown _]; [reflexivity|].
    apply Hown. reflexivity.
  - destruct (Hlist bob "d0c000000000000000000001") as [_ Hother]; [reflexivity|].
    apply Hother; [discriminate | reflexivity].
  - destruct (Hdetail sample_ctx
                {| pdfreq_id := "d0c000000000000000000001"; pdfreq_user := None |} alice_doc)
      as (anns & Hl & _ & _ & Hanon);
      [reflexivity | reflexivity | reflexivity | reflexivity | by left |].
    exists anns. split; [exact Hl|]. by apply Hanon.
Defined.

Lemma filter_none {A} (P : A → Prop) `{∀ x, Decision (P x)} (l : list A) :
  (∀ x, x ∈ l → ¬ P x) → filter P l = [].
Proof.
  induction l as [|x l IH]; intros Hl; [done|].
  rewrite filter_cons, decide_False by (apply Hl; left).
  apply IH. intros y Hy. apply Hl. by right.
Qed.

Lemma not_owner_nor_admin_false owner u :
  not_owner_nor_admin owner u = false ↔ owner_or_admin owner u.
Proof.
  unfold not_owner_nor_admin, owner_or_admin.
  rewrite andb_false_iff, !bool_decide_eq_false.
  split.
  - intros [Ho|Hr]; [left|right].
    + by destruct (decide (owner = user_id u)).
    + by destruct (decide (user_role u = "admin")).
  - intros [Ho|Hr]; [left|right]; intros Hn; by destruct Hn.
Qed.

(** Removing a document through [pdf.remove()] runs the schema's hook
    first: no annotation of the document is left either. *)
Lemma PDF_remove_cascades (this : PDF) s :
  annotations_of (pdf_id this) (PDF_remove this s).2 = [] ∧
  pdfs (PDF_remove this s).2 !! pdf_id this = None.
Proof.
  unfold PDF_remove, pdfSchema_pre_remove. run_handler. split.
  - unfold annotations_of, all_annotations. apply filter_none.
    intros a Ha. apply list_elem_of_fmap in Ha as ([k a'] & -> & Hin).
    apply elem_of_map_to_list in Hin. simpl in Hin.
    by apply map_lookup_filter_Some in Hin as [_ Hne].
  - apply lookup_delete_eq.
Qed.

(** The store a permitted document delete leaves behind. *)
Lemma deletePdf_permitted req s D :
  pdfs s !! pdfauth_id req = Some D →
  owner_or_admin (pdf_user D) (pdfauth_user req) →
  deletePdf req s =
    (Json 200 (BMessage true "PDF deleted successfully"),
     let s1 := record (EvDeleteAnnotationsOf (pdf_id D))
                 (set_annotations (filter (λ kv, ann_pdf kv.2 ≠ pdf_id D)) s) in
     let s2 := if bool_decide (pdf_filePath D ∈ files s)
               then record (EvUnlink (pdf_filePath D))
                      (set_files (λ fs, fs ∖ {[pdf_filePath D]}) s1)
               else s1 in
     record (EvDeletePdf (pdfauth_id req)) (set_pdfs (delete (pdfauth_id req)) s2)).
Proof.
  intros HD Hperm. apply not_owner_nor_admin_false in Hperm.
  unfold deletePdf. run_handler. rewrite HD, Hperm. simpl.
  by destruct (bool_decide (pdf_filePath D ∈ files s)).
Qed.

(** A document delete answers 200 only for a stored document and a
    permitted actor. *)
Lemma deletePdf_success_inv req s body :
  (deletePdf req s).1 = Json 200 body →
  ∃ D, pdfs s !! pdfauth_id req = Some D ∧
       owner_or_admin (pdf_user D) (pdfauth_user req).
Proof.
  unfold deletePdf. run_handler.
  destruct (pdfs s !! pdfauth_id req) as [D|]; simpl;
    [|by destruct (is_ObjectId (pdfauth_id req))].
  destruct (not_owner_nor_admin (pdf_user D) (pdfauth_user req)) eqn:Hp;
    simpl; [done|].
  intros _. exists D. split; [done|]. by apply not_owner_nor_admin_false.
Qed.

(** C2.  A document delete by its owner or an admin succeeds, and
    afterwards the document is gone and no stored annotation, hence no
    reply, references its id; in the journal of writes the cascade delete
    of the annotations comes before the removal of the document record. *)
Theorem delete_cascades req s D :
  pdfs s !! pdfauth_id req = Some D →
  pdf_id D = pdfauth_id req →
  owner_or_admin (pdf_user D) (pdfauth_user req) →
  let s' := (deletePdf req s).2 in
  (deletePdf req s).1 = Json 200 (BMessage true "PDF deleted successfully") ∧
  pdfs s' !! pdfauth_id req = None ∧
  annotations_of (pdfauth_id req) s' = [] ∧
  replies_of (pdfauth_id req) s' = [] ∧
  ∃ between,
    journal s' =
      journal s ++ EvDeleteAnnotationsOf (pdfauth_id req) :: between
                ++ [EvDeletePdf (pdfauth_id req)].
Proof.
  intros HD Hid Hperm. rewrite (deletePdf_permitted _ _ _ HD Hperm).
  rewrite Hid. simpl.
  assert (Hnone : annotations_of (pdfauth_id req)
            (record (EvDeletePdf (pdfauth_id req))
               (set_pdfs (delete (pdfauth_id req))
                  (if bool_decide (pdf_filePath D ∈ files s)
                   then record (EvUnlink (pdf_filePath D))
                          (set_files (λ fs, fs ∖ {[pdf_filePath D]})
                             (record (EvDeleteAnnotationsOf (pdfauth_id req))
                                (set_annotations
                                   (filter (λ kv, ann_pdf kv.2 ≠ pdfauth_id req)) s)))
                   else record (EvDeleteAnnotationsOf (pdfauth_id req))
                          (set_annotations
                             (filter (λ kv, ann_pdf kv.2 ≠ pdfauth_id req)) s))))
          = []).
  { unfold annotations_of, all_annotations. apply filter_none.
    intros a Ha. apply list_elem_of_fmap in Ha as ([k a'] & -> & Hin).
    apply elem_of_map_to_list in Hin.
    destruct (bool_decide (pdf_filePath D ∈ files s)); simpl in Hin;
      by apply map_lookup_filter_Some in Hin as [_ Hne]. }
  split; [done|]. split.
  { destruct (bool_decide (pdf_filePath D ∈ files s)); simpl;
      apply lookup_delete_eq. }
  split; [exact Hnone|]. split.
  { unfold replies_of. by rewrite Hnone. }
  destruct (bool_decide (pdf_filePath D ∈ files s)); simpl.
  - exists [EvUnlink (pdf_filePath D)]. by rewrite <- !app_assoc.
  - exists []. by rewrite <- !app_assoc.
Qed.

Lemma delete_cascades_witness :
  let req := {| pdfauth_id := "d0c000000000000000000001"; pdfauth_user := alice |} in
  let s' := (deletePdf req (sample_store false)).2 in
  (deletePdf req (sample_store false)).1
    = Json 200 (BMessage true "PDF deleted successfully") ∧
  pdfs s' !! "d0c000000000000000000001" = None ∧
  annotations_of "d0c000000000000000000001" s' = [] ∧
  replies_of "d0c000000000000000000001" s' = [] ∧
  ∃ between,
    journal s' = [] ++ EvDeleteAnnotationsOf "d0c000000000000000000001" :: between
                    ++ [EvDeletePdf "d0c000000000000000000001"].
Proof.
  apply (delete_cascades {| pdfauth_id := "d0c000000000000000000001"; pdfauth_user := alice |}
           (sample_store false) (sample_pdf false));
    [reflexivity | reflexivity | by left].
Defined.

Section UploadProperties.

Variable JSON_parse : string → option JValue.
Variable path_extname : string → string.
Variable path_join : string → string → string.
Variable MAX_FILE_SIZE : option string.

(** C3, amended.  The size limit is 50 MiB unless the environment
    configures another one, and, the limit not being negative, an upload
    whose file has more bytes than the limit is answered with status 400;
    nothing is written: no document is created and no file is kept. *)
Theorem oversized_upload_rejected ctx req s part :
  upload_part req = Some part →
  0 ≤ limits_fileSize MAX_FILE_SIZE →
  limits_fileSize MAX_FILE_SIZE < part_size part →
  (MAX_FILE_SIZE = None → limits_fileSize MAX_FILE_SIZE = 50 * 1024 * 1024) ∧
  ∃ message,
    uploadRoute JSON_parse path_extname path_join MAX_FILE_SIZE ctx req s
    = (Json 400 (BMessage false message), s).
Proof.
  intros Hpart Hlimit Hsize. split.
  { by intros ->. }
  unfold uploadRoute, upload_single. rewrite Hpart. run_handler.
  destruct (String.eqb (part_fieldname part) "pdf"); simpl; [|by eexists].
  unfold fileFilter.
  destruct (String.eqb (part_mimetype part) "application/pdf"); simpl;
    [|by eexists].
  assert ((0 <=? limits_fileSize MAX_FILE_SIZE)
          && (limits_fileSize MAX_FILE_SIZE <=? part_size part) = true) as ->.
  { apply andb_true_intro. split; apply Z.leb_le; lia. }
  simpl. by eexists.
Qed.

(** C9.  When the form of an upload has no [isPublic] field, the handler
    hands the string 'true' to [PDF.create], which casts it to [true]:
    every document such an upload creates is public, although the schema's
    default for [isPublic] is [false]. *)
Theorem upload_without_isPublic_is_public ctx req s message pdf s' :
  upload_isPublic req = None →
  uploadRoute JSON_parse path_extname path_join MAX_FILE_SIZE ctx req s
    = (Json 201 (BUploaded message pdf), s') →
  upload_isPublic_value req = JStr "true" ∧
  pdf_isPublic pdf = true ∧
  pdfs s' !! pdf_id pdf = Some pdf ∧
  pdfs s !! pdf_id pdf = None ∧
  pdfSchema_isPublic_default = false.
Proof.
  intros Hfield. unfold uploadRoute, upload_single, uploadHandler, PDF_create.
  unfold upload_isPublic_value. rewrite Hfield. simpl.
  unfold handleMulterError. run_handler.
  repeat (case_match; simpl in *; simplify_eq; try done);
    intros [= <- <- <-]; simpl; (repeat split; try done);
    by rewrite lookup_insert_eq.
Qed.

End UploadProperties.

(** C3, counterexample.  With the default limit, an authenticated upload
    of a PDF of 50 MiB and one byte is answered 400, not 413. *)
Lemma oversized_upload_is_not_413 :
  let out :=
    uploadRoute sample_JSON_parse sample_extname sample_join None
      sample_ctx (sample_upload (50 * 1024 * 1024 + 1)) empty_store in
  limits_fileSize None < 50 * 1024 * 1024 + 1 ∧
  out.1 = Json 400 (BMessage false
            "File size too large. Maximum size allowed is 50MB.") ∧
  ¬ ∃ body, out.1 = Json 413 body.
Proof.
  split; [done|]. split; [reflexivity|]. by intros [body [=]].
Qed.

Lemma oversized_upload_rejected_witness :
  ∃ message,
    uploadRoute sample_JSON_parse sample_extname sample_join None
      sample_ctx (sample_upload (50 * 1024 * 1024 + 1)) empty_store
    = (Json 400 (BMessage false message), empty_store).
Proof.
  eapply (oversized_upload_rejected sample_JSON_parse sample_extname
            sample_join None sample_ctx
            (sample_upload (50 * 1024 * 1024 + 1)) empty_store);
    [reflexivity | done | done].
Defined.

Lemma sample_upload_created :
  uploadRoute sample_JSON_parse sample_extname sample_join None
    sample_ctx (sample_upload 1024) empty_store
  = (Json 201 (BUploaded "PDF uploaded successfully" sample_uploaded),
     (uploadRoute sample_JSON_parse sample_extname sample_join None
        sample_ctx (sample_upload 1024) empty_store).2).
Proof. vm_compute. reflexivity. Qed.

Lemma upload_without_isPublic_is_public_witness :
  pdf_isPublic sample_uploaded = true ∧
  pdfs (uploadRoute sample_JSON_parse sample_extname sample_join None
          sample_ctx (sample_upload 1024) empty_store).2 !! "f00000000000000000000000"
    = Some sample_uploaded.
Proof.
  destruct (upload_without_isPublic_is_public sample_JSON_parse sample_extname
              sample_join None sample_ctx (sample_upload 1024) empty_store
              _ _ _ eq_refl sample_upload_created)
    as (_ & Hpublic & Hstored & _).
  split; [exact Hpublic | exact Hstored].
Defined.

Lemma updateAnnotation_outcome ctx req s a :
  annotations s !! update_id req = Some a →
  updateAnnotation ctx req s =
    if bool_decide (ann_user a ≠ user_id (update_user req)) then
      (Json 403 (BMessage false "Not authorized to update this annotation"), s)
    else if update_valid (updateFields a req) then
      let a' := apply_update ctx (updateFields a req) a in
      (Json 200 (BAnnotation "Annotation updated successfully"
                   (Some (Annotation_document a'))),
       updated_store ctx (update_id req) a' s)
    else (Next (ValidationError "Annotation"), s).
Proof.
  intros Ha. unfold updateAnnotation. run_handler. rewrite Ha. simpl.
  case_bool_decide; simpl; [done|].
  destruct (update_valid (updateFields a req)); simpl; [|done].
  by rewrite Ha.
Qed.






Lemma deleteAnnotation_outcome req s a :
  annotations s !! annreq_id req = Some a →
  deleteAnnotation req s =
    if not_owner_nor_admin (ann_user a) (annreq_user req) then
      (Json 403 (BMessage false "Not authorized to delete this annotation"), s)
    else
      (Json 200 (BMessage true "Annotation deleted successfully"),
       record (EvDeleteAnnotation (annreq_id req))
         (set_annotations (delete (annreq_id req)) s)).
Proof.
  intros Ha. unfold deleteAnnotation. run_handler. rewrite Ha.
  by destruct (not_owner_nor_admin (ann_user a) (annreq_user req)).
Qed.




Lemma note_defaults :
  minimizeContent (applyContentDefaults sample_content) = note_with_defaults.
Proof. vm_compute. reflexivity. Qed.

Lemma note_valid : content_valid note_with_defaults = true.
Proof. vm_compute. reflexivity. Qed.

Lemma note_required : content_required note_with_defaults = true.
Proof. vm_compute. reflexivity. Qed.

Lemma Qle_bool_1_nonzero (q : Q) : Qle_bool 1 q = true → Qeq_bool q 0 = false.
Proof.
  intros Hle. apply Qle_bool_iff in Hle.
  destruct (Qeq_bool q 0) eqn:Heq; [|done].
  apply Qeq_bool_iff in Heq. rewrite Heq in Hle. by apply Qle_bool_iff in Hle.
Qed.

Lemma type_in_enum_nonempty (t : string) :
  t ∈ annotationSchema_type_enum → String.eqb t "" = false.
Proof.
  intros Hin. apply String.eqb_neq. intros ->.
  unfold annotationSchema_type_enum in Hin.
  repeat (apply elem_of_cons in Hin as [Hin|Hin]; [done|]).
  by apply elem_of_nil in Hin.
Qed.

(** C7, counterexample.  Bob annotates the public sample document with
    the note and no style.  The annotation then stored under the new id
    has a style with stroke width, font size and font family besides
    colour and opacity, and an empty list of points: its content is not
    the input plus colour and opacity alone. *)
Lemma created_content_has_more_defaults :
  ∃ a,
    annotations (createAnnotation sample_ctx (note_request bob "d0c000000000000000000001" 1 "text")
                   (sample_store true)).2 !! "f00000000000000000000000" = Some a ∧
    ann_content a !! "style" =
      Some (JObj {[ "color" := JStr "#FFFF00"; "opacity" := JNum (1 # 2);
                    "strokeWidth" := JNum 2; "fontSize" := JNum 14;
                    "fontFamily" := JStr "Arial" ]}) ∧
    ann_content a ≠ note_with_color_and_opacity.
Proof.
  eexists. split; [vm_compute; reflexivity|]. split; [vm_compute; reflexivity|].
  intros Heq. apply (f_equal (λ c, c !! "style")) in Heq.
  vm_compute in Heq. discriminate.
Qed.

(** C7, amended.  A user with read access to a document annotates it with
    the content [{ text: "note", coordinates: { x: 10, y: 20 } }] and no
    style.  The request is answered 201 with the annotation fetched by its
    new id, which is the stored one; its content keeps the supplied text
    and coordinates unchanged and is the input plus the schema's defaults:
    the style with colour "#FFFF00", opacity 0.5, stroke width 2, font
    size 14 and font family "Arial", and an empty list of points. *)
Theorem create_fetch_roundtrip ctx s u pdfId D page type :
  pdfs s !! pdfId = Some D →
  hasAccess_annotate D u = true →
  pdfId ≠ "" →
  Qle_bool 1 page = true →
  type ∈ annotationSchema_type_enum →
  annotations s !! newId ctx = None →
  ∃ a,
    (createAnnotation ctx (note_request u pdfId page type) s).1 =
      Json 201 (BAnnotation "Annotation created successfully" (Some a)) ∧
    annotations (createAnnotation ctx (note_request u pdfId page type) s).2
      !! newId ctx = Some a ∧
    ann_content a = note_with_defaults ∧
    ann_content a !! "text" = sample_content !! "text" ∧
    ann_content a !! "coordinates" = sample_content !! "coordinates".
Proof.
  intros HD Haccess Hid Hpage Htype Hfresh.
  unfold createAnnotation, note_request. run_handler.
  apply String.eqb_neq in Hid. rewrite Hid.
  rewrite (Qle_bool_1_nonzero _ Hpage), (type_in_enum_nonempty _ Htype).
  simpl. rewrite HD. simpl. rewrite Haccess. simpl.
  unfold annotation_doc_valid. simpl.
  rewrite Hpage, (bool_decide_true _ Htype), note_defaults. simpl.
  rewrite note_valid, note_required. simpl. rewrite Hfresh. simpl. rewrite lookup_insert_eq.
  eexists. split; [done|]. split; [done|]. simpl.
  split; [done|]. split; reflexivity.
Qed.

Lemma create_fetch_roundtrip_witness :
  ∃ a,
    (createAnnotation sample_ctx (note_request bob "d0c000000000000000000001" 1 "text")
       (sample_store true)).1 =
      Json 201 (BAnnotation "Annotation created successfully" (Some a)) ∧
    annotations (createAnnotation sample_ctx (note_request bob "d0c000000000000000000001" 1 "text")
                   (sample_store true)).2 !! "f00000000000000000000000" = Some a ∧
    ann_content a = note_with_defaults ∧
    ann_content a !! "text" = sample_content !! "text" ∧
    ann_content a !! "coordinates" = sample_content !! "coordinates".
Proof.
  apply (create_fetch_roundtrip sample_ctx (sample_store true) bob "d0c000000000000000000001"
           (sample_pdf true) 1 "text");
    [reflexivity | reflexivity | discriminate | reflexivity
    | unfold annotationSchema_type_enum; set_solver | reflexivity].
Defined.

Lemma reply_text_missing_store text s : (reply_text_missing text s).2 = s.
Proof.
  unfold reply_text_missing. destruct text as [v|]; [|done].
  destruct (truthy v); [|done]. by destruct v.
Qed.

(** C10.  No request adds a reply to a private annotation: whoever the
    actor is, the author of the annotation and the owner of the document
    included, the store is left as it was, and a request with a reply
    text that is not blank, on an annotation whose document is stored, is
    answered 403. *)
Theorem private_annotation_takes_no_reply ctx req s a :
  annotations s !! replyreq_id req = Some a →
  ann_isPrivate a = true →
  (addReply ctx req s).2 = s ∧
  (∀ text D,
     replyreq_text req = Some (JStr text) →
     trim text ≠ "" →
     pdfs s !! ann_pdf a = Some D →
     (addReply ctx req s).1 =
       Json 403 (BMessage false "Not authorized to reply to this annotation")).
Proof.
  intros Ha Hprivate. split.
  - unfold addReply. run_handler.
    pose proof (reply_text_missing_store (replyreq_text req) s) as Hs.
    destruct (reply_text_missing (replyreq_text req) s) as [[e|missing] s0].
    + done.
    + simpl in Hs. subst s0. destruct missing; [done|].
      rewrite Ha. simpl.
      destruct (pdfs s !! ann_pdf a) as [D|]; simpl; [|done].
      by rewrite Hprivate, orb_true_r.
  - intros text D Htext Hblank HD. unfold addReply, reply_text_missing.
    rewrite Htext. run_handler.
    assert (Hne : String.eqb text "" = false).
    { apply String.eqb_neq. intros ->. by apply Hblank. }
    rewrite Hne. simpl. apply String.eqb_neq in Hblank. rewrite Hblank.
    rewrite Ha. simpl. rewrite HD. simpl. by rewrite Hprivate, orb_true_r.
Qed.

Lemma private_annotation_takes_no_reply_witness :
  let req := {| replyreq_user := alice; replyreq_id := "a00000000000000000000002";
                replyreq_text := Some (JStr " thanks ") |} in
  (addReply sample_ctx req (sample_store true)).2 = sample_store true ∧
  (addReply sample_ctx req (sample_store true)).1 =
    Json 403 (BMessage false "Not authorized to reply to this annotation").
Proof.
  intros req.
  destruct (private_annotation_takes_no_reply sample_ctx req (sample_store true)
              (sample_annotation "a00000000000000000000002" "a11ce0000000000000000001" true 1660000000000)
              eq_refl eq_refl) as [Hstore Hdenied].
  split; [exact Hstore|].
  apply (Hdenied " thanks " (sample_pdf true));
    [reflexivity | discriminate | reflexivity].
Defined.

(** ** The collections stay keyed by [_id] *)

Lemma wf_empty : store_wf empty_store.
Proof. split; apply map_Forall_empty. Qed.

Lemma wf_record e s : store_wf s → store_wf (record e s).
Proof. by intros [? ?]. Qed.

Lemma wf_set_files f s : store_wf s → store_wf (set_files f s).
Proof. by intros [? ?]. Qed.

Lemma wf_insert_pdf k pdf s :
  pdf_id pdf = k → store_wf s → store_wf (set_pdfs <[k := pdf]> s).
Proof. intros Hk [Hp Ha]. split; [by apply map_Forall_insert_2|done]. Qed.

Lemma wf_delete_pdf k s : store_wf s → store_wf (set_pdfs (delete k) s).
Proof. intros [Hp Ha]. split; [by apply map_Forall_delete|done]. Qed.

Lemma wf_insert_annotation k a s :
  ann_id a = k → store_wf s → store_wf (set_annotations <[k := a]> s).
Proof. intros Hk [Hp Ha]. split; [done|by apply map_Forall_insert_2]. Qed.

Lemma wf_delete_annotation k s :
  store_wf s → store_wf (set_annotations (delete k) s).
Proof. intros [Hp Ha]. split; [done|by apply map_Forall_delete]. Qed.

Lemma wf_filter_annotations (P : string * Annotation → Prop)
    `{∀ kv, Decision (P kv)} s :
  store_wf s → store_wf (set_annotations (filter P) s).
Proof.
  intros [Hp Ha]. split; [done|]. simpl.
  intros k a Hk. apply map_lookup_filter_Some in Hk as [Hk _]. by apply Ha.
Qed.

#[export] Hint Resolve wf_record wf_set_files wf_insert_pdf wf_delete_pdf
  wf_insert_annotation wf_delete_annotation wf_filter_annotations : wf.

Lemma wf_lookup_pdf s k D : store_wf s → pdfs s !! k = Some D → pdf_id D = k.
Proof. intros [Hp _] HD. by apply Hp in HD. Qed.

Lemma wf_lookup_annotation s k a :
  store_wf s → annotations s !! k = Some a → ann_id a = k.
Proof. intros [_ Ha] Hk. by apply Ha in Hk. Qed.

(** Running a handler to its end: unfold it and follow every branch. *)
Ltac follow_branches :=
  run_handler;
  repeat (case_match; simpl in *; simplify_eq; try done);
  eauto 8 with wf.

Lemma getPdf_wf ctx req s : store_wf s → store_wf (getPdf ctx req s).2.
Proof.
  intros Hwf. unfold getPdf, hasAccess_detail, visible_annotations.
  follow_branches.
Qed.

Lemma getPdfFile_wf req s : store_wf s → store_wf (getPdfFile req s).2.
Proof. by rewrite getPdfFile_store. Qed.

Lemma deletePdf_wf req s : store_wf s → store_wf (deletePdf req s).2.
Proof. intros Hwf. unfold deletePdf. follow_branches. Qed.

Lemma createAnnotation_wf ctx req s :
  store_wf s → store_wf (createAnnotation ctx req s).2.
Proof. intros Hwf. unfold createAnnotation. follow_branches. Qed.

Lemma listAnnotations_wf req s : store_wf s → store_wf (listAnnotations req s).2.
Proof. intros Hwf. unfold listAnnotations. follow_branches. Qed.

Lemma updateAnnotation_wf ctx req s :
  store_wf s → store_wf (updateAnnotation ctx req s).2.
Proof.
  intros Hwf. unfold updateAnnotation. follow_branches.
  apply wf_record, wf_insert_annotation; [simpl|done].
  by eapply wf_lookup_annotation.
Qed.

Lemma deleteAnnotation_wf req s : store_wf s → store_wf (deleteAnnotation req s).2.
Proof. intros Hwf. unfold deleteAnnotation. follow_branches. Qed.

Lemma addReply_wf ctx req s : store_wf s → store_wf (addReply ctx req s).2.
Proof.
  intros Hwf. unfold addReply, reply_text_missing. follow_branches.
Qed.

Lemma uploadRoute_wf JSON_parse path_extname path_join MAX_FILE_SIZE ctx req s :
  store_wf s →
  store_wf (uploadRoute JSON_parse path_extname path_join MAX_FILE_SIZE
              ctx req s).2.
Proof.
  intros Hwf.
  unfold uploadRoute, upload_single, uploadHandler, PDF_create, handleMulterError.
  follow_branches.
Qed.

(** * Further properties of the routes *)

Lemma removed_not_on_disk (fs : gset string) (p : string) : p ∉ fs ∖ {[p]}.
Proof. rewrite elem_of_difference, elem_of_singleton. by intros [_ Hp]. Qed.

Lemma written_on_disk (fs : gset string) (p : string) : p ∈ fs ∪ {[p]}.
Proof. apply elem_of_union_r. by apply elem_of_singleton. Qed.

Section UploadBehaviour.

Variable JSON_parse : string → option JValue.
Variable path_extname : string → string.
Variable path_join : string → string → string.
Variable MAX_FILE_SIZE : option string.

(** X1.  An upload is answered 400 and leaves the store as it was, no
    file and no document, when the form has no file, when its file comes
    under another field name than [pdf], and when its file is not declared
    as [application/pdf], whatever its size. *)
Theorem upload_refusals ctx req s :
  (upload_part req = None →
     uploadRoute JSON_parse path_extname path_join MAX_FILE_SIZE ctx req s
     = (Json 400 (BMessage false "Please upload a PDF file"), s)) ∧
  (∀ part, upload_part req = Some part →
     (part_fieldname part ≠ "pdf" →
        uploadRoute JSON_parse path_extname path_join MAX_FILE_SIZE ctx req s
        = (Json 400 (BMessage false
                       "Too many files. Only one PDF file is allowed."), s)) ∧
     (part_fieldname part = "pdf" →
      part_mimetype part ≠ "application/pdf" →
        uploadRoute JSON_parse path_extname path_join MAX_FILE_SIZE ctx req s
        = (Json 400 (BMessage false
                       "Invalid file type. Only PDF files are allowed."), s))).
Proof.
  unfold uploadRoute, upload_single, uploadHandler. split.
  - intros ->. by run_handler.
  - intros part ->. split.
    + intros Hfield. apply String.eqb_neq in Hfield. rewrite Hfield. by run_handler.
    + intros -> Hmime. apply String.eqb_neq in Hmime. unfold fileFilter.
      rewrite Hmime. by run_handler.
Qed.

(** X2.  When the final handler of an upload, reached with a stored
    file, ends in an error, it has unlinked that file before handing the
    error on: the path is not on disk, the unlink is the only write, and no
    document was stored. *)
Theorem upload_failure_cleans_up ctx req file s e s' :
  uploadHandler JSON_parse ctx req (Some file) s = (Next e, s') →
  journal s' = journal s ++ [EvUnlink (file_path file)] ∧
  (file_path file ∉ files s') ∧
  pdfs s' = pdfs s.
Proof.
  unfold uploadHandler, PDF_create. run_handler.
  repeat (case_match; simpl in *; simplify_eq; try done);
    intros [= <- <-]; simpl;
    (split; [done|]; split; [apply removed_not_on_disk|done]).
Qed.

(** X3.  With a size limit that is not negative, every document an
    upload creates belongs to the uploader, is declared a PDF of at most
    the configured size, starts with status [ready] and an access count of
    zero, and its file is on disk under the path the document records. *)
Theorem uploaded_document_shape ctx req s message pdf s' :
  0 ≤ limits_fileSize MAX_FILE_SIZE →
  uploadRoute JSON_parse path_extname path_join MAX_FILE_SIZE ctx req s
    = (Json 201 (BUploaded message pdf), s') →
  pdfs s' !! pdf_id pdf = Some pdf ∧
  pdf_user pdf = user_id (upload_user req) ∧
  pdf_mimeType pdf = "application/pdf" ∧
  pdf_fileSize pdf ≤ limits_fileSize MAX_FILE_SIZE ∧
  pdf_status pdf = "ready" ∧
  pdf_accessCount pdf = 0 ∧
  pdf_filePath pdf ∈ files s'.
Proof.
  intros Hlimit.
  unfold uploadRoute, upload_single, uploadHandler, PDF_create.
  unfold handleMulterError. run_handler.
  repeat (case_match; simpl in *; simplify_eq; try done);
    try (match goal with H : (_ <? 0) = true |- _ => apply Z.ltb_lt in H end;
         lia).
  intros [= <- <- <-]. simpl. rewrite lookup_insert_eq.
  repeat split; try done.
  - match goal with H : fileFilter _ = None |- _ =>
      unfold fileFilter in H; case_match; [|done] end.
    by apply String.eqb_eq.
  - match goal with H : _ && _ = false |- _ =>
      apply andb_false_iff in H as [H|H]; apply Z.leb_gt in H end; lia.
  - apply written_on_disk.
Qed.

End UploadBehaviour.

Lemma default_limit_not_negative : 0 ≤ limits_fileSize None.
Proof. done. Qed.

Lemma upload_refusals_witness :
  uploadRoute sample_JSON_parse sample_extname sample_join None sample_ctx
    {| upload_user := alice;
       upload_part :=
         Some {| part_fieldname := "pdf"; part_originalname := "notes.txt";
                 part_mimetype := "text/plain"; part_size := 10 |};
       upload_title := None; upload_description := None;
       upload_tags := None; upload_isPublic := None |} empty_store
  = (Json 400 (BMessage false "Invalid file type. Only PDF files are allowed."),
     empty_store).
Proof.
  eapply (upload_refusals sample_JSON_parse sample_extname sample_join None);
    [reflexivity | reflexivity | discriminate].
Defined.

Lemma long_title_upload_fails :
  uploadHandler sample_JSON_parse sample_ctx (titled_upload long_title)
    (Some sample_file) (stored_file_store sample_file)
  = (Next (ValidationError "PDF"),
     (uploadHandler sample_JSON_parse sample_ctx (titled_upload long_title)
        (Some sample_file) (stored_file_store sample_file)).2).
Proof. vm_compute. reflexivity. Qed.

Lemma upload_failure_cleans_up_witness :
  "uploads/pdfs/uuid-1.pdf" ∉
    files (uploadHandler sample_JSON_parse sample_ctx (titled_upload long_title)
             (Some sample_file) (stored_file_store sample_file)).2.
Proof.
  eapply (upload_failure_cleans_up sample_JSON_parse sample_ctx
            (titled_upload long_title) sample_file _ _ _
            long_title_upload_fails).
Defined.

Lemma uploaded_document_shape_witness :
  pdf_user sample_uploaded = "a11ce0000000000000000001" ∧
  "uploads/pdfs/uuid-1.pdf" ∈
    files (uploadRoute sample_JSON_parse sample_extname sample_join None
             sample_ctx (sample_upload 1024) empty_store).2.
Proof.
  destruct (uploaded_document_shape sample_JSON_parse sample_extname
              sample_join None sample_ctx (sample_upload 1024) empty_store
              _ _ _ default_limit_not_negative sample_upload_created)
    as (_ & Huser & _ & _ & _ & _ & Hfile).
  split; [exact Huser | exact Hfile].
Defined.

(** ** Creating annotations *)

(** X4.  A request to annotate that lacks the document id, the page, the
    type or the content, or gives an empty id, page 0 or an empty type, is
    answered 400 before anything is looked up, and nothing is stored. *)
Theorem create_incomplete_body ctx req s :
  create_pdfId req = None ∨ create_pdfId req = Some "" ∨
  create_page req = None ∨ (∃ q, create_page req = Some q ∧ (q == 0)%Q) ∨
  create_type req = None ∨ create_type req = Some "" ∨
  create_content req = None →
  createAnnotation ctx req s =
    (Json 400 (BMessage false "Please provide pdfId, page, type, and content"), s).
Proof.
  intros H. unfold createAnnotation. run_handler.
  destruct (create_pdfId req) as [pdfId|], (create_page req) as [page|],
    (create_type req) as [type|], (create_content req) as [content|];
    simpl; try done.
  assert ((pdfId =? "")%string || Qeq_bool page 0 || (type =? "")%string = true)
    as ->; [|done].
  destruct H as [H|[H|[H|[(q & H & Hq)|[H|[H|H]]]]]]; simplify_eq; try done.
  - apply Qeq_bool_iff in Hq. by rewrite Hq, orb_true_r.
  - by rewrite orb_true_r.
Qed.

Lemma create_incomplete_body_witness :
  createAnnotation sample_ctx
    {| create_user := bob; create_pdfId := Some "d0c000000000000000000001"; create_page := Some 0%Q;
       create_type := Some "text"; create_content := Some sample_content;
       create_isPrivate := None; create_tags := None |} (sample_store true) =
    (Json 400 (BMessage false "Please provide pdfId, page, type, and content"),
     sample_store true).
Proof.
  apply create_incomplete_body. right. right. right. left.
  exists 0%Q. split; reflexivity.
Defined.



(** X6.  Every annotation the create route stores and returns is new
    under its id, carries the requester as author whatever the body says,
    references the stored document the body names, which the requester
    may read, has the page and the type of the body, a page of at least 1
    and a type of the schema's list, and starts unresolved and without
    replies.  It is private exactly when the body gives [isPrivate] a
    truthy value that casts to [true]: it is not when the field is absent
    or falsy, and a boolean is taken as it is. *)
Theorem created_annotation_shape ctx req s message a s' :
  createAnnotation ctx req s = (Json 201 (BAnnotation message (Some a)), s') →
  annotations s !! ann_id a = None ∧
  annotations s' !! ann_id a = Some a ∧
  ann_user a = user_id (create_user req) ∧
  create_pdfId req = Some (ann_pdf a) ∧
  (∃ D, pdfs s !! ann_pdf a = Some D ∧
        (pdf_user D = user_id (create_user req) ∨ pdf_isPublic D = true)) ∧
  create_page req = Some (ann_page a) ∧
  create_type req = Some (ann_type a) ∧
  (1 <= ann_page a)%Q ∧
  ann_type a ∈ annotationSchema_type_enum ∧
  ann_replies a = [] ∧
  ann_isResolved a = false ∧
  (ann_isPrivate a = true ↔
     ∃ v, create_isPrivate req = Some v ∧ truthy v = true ∧
          castBoolean v = Some true) ∧
  (create_isPrivate req = None → ann_isPrivate a = false) ∧
  (∀ b, create_isPrivate req = Some (JBool b) → ann_isPrivate a = b).
Proof.
  unfold createAnnotation. run_handler.
  destruct (create_pdfId req) as [pdfId|], (create_page req) as [page|],
    (create_type req) as [type|], (create_content req) as [content|];
    simpl; try done.
  destruct ((pdfId =? "")%string || Qeq_bool page 0 || (type =? "")%string);
    [done|].
  destruct (pdfs s !! pdfId) as [D|] eqn:HD; simpl;
    [|by destruct (is_ObjectId pdfId)].
  destruct (hasAccess_annotate D (create_user req)) eqn:Hacc; simpl; [|done].
  destruct (castBoolean (js_or (create_isPrivate req) (JBool false)))
    as [priv|] eqn:Hpriv; simpl; [|done].
  match goal with |- context [annotation_doc_valid ?x] =>
    destruct (annotation_doc_valid x) eqn:Hvalid end; simpl; [|done].
  destruct (annotations s !! newId ctx) eqn:Hfresh; simpl; [done|].
  rewrite lookup_insert_eq. intros [= <- <- <-]. simpl.
  unfold annotation_doc_valid in Hvalid. simpl in Hvalid.
  repeat (apply andb_prop in Hvalid as [Hvalid ?]).
  apply Qle_bool_iff in Hvalid.
  repeat match goal with
         | H : bool_decide _ = true |- _ => apply bool_decide_eq_true in H
         end.
  split_and!; try done.
  - by rewrite lookup_insert_eq.
  - exists D. split; [done|]. unfold hasAccess_annotate in Hacc.
    apply orb_prop in Hacc as [Ho|Hp]; [left|right]; [|done].
    by apply bool_decide_eq_true in Ho.
  - unfold js_or in Hpriv. split.
    + intros ->. destruct (create_isPrivate req) as [v|]; [|done].
      destruct (truthy v) eqn:Hv; [|done]. by exists v.
    + intros (v & Hreq & Hv & Hcast). rewrite Hreq, Hv, Hcast in Hpriv.
      by injection Hpriv.
  - intros Hnone. rewrite Hnone in Hpriv. simpl in Hpriv. by injection Hpriv.
  - intros b Hb. rewrite Hb in Hpriv. simpl in Hpriv.
    destruct b; simpl in Hpriv; by injection Hpriv.
Qed.

Lemma sample_note_created :
  createAnnotation sample_ctx (note_request bob "d0c000000000000000000001" 1 "text") (sample_store true)
  = (Json 201 (BAnnotation "Annotation created successfully" (Some sample_note)),
     (createAnnotation sample_ctx (note_request bob "d0c000000000000000000001" 1 "text")
        (sample_store true)).2).
Proof. vm_compute. reflexivity. Qed.

Lemma created_annotation_shape_witness :
  ann_user sample_note = user_id bob ∧
  (∃ D, pdfs (sample_store true) !! "d0c000000000000000000001" = Some D ∧
        (pdf_user D = user_id bob ∨ pdf_isPublic D = true)) ∧
  ann_replies sample_note = [].
Proof.
  destruct (created_annotation_shape sample_ctx
              (note_request bob "d0c000000000000000000001" 1 "text") (sample_store true) _ _ _
              sample_note_created)
    as (_ & _ & Hauthor & _ & Hdoc & _ & _ & _ & _ & Hreplies & _).
  split; [exact Hauthor|]. split; [exact Hdoc | exact Hreplies].
Defined.

(** X7.  With a complete body and read access to the document, a page
    below 1 or a type outside the schema's list fails validation: the
    error goes to [next] and no annotation is stored. *)
Theorem create_rejects_bad_page_or_type
    ctx u pdfId page type content isPrivate tags s D :
  pdfId ≠ "" → ¬ (page == 0)%Q → type ≠ "" →
  pdfs s !! pdfId = Some D →
  pdf_user D = user_id u ∨ pdf_isPublic D = true →
  (page < 1)%Q ∨ type ∉ annotationSchema_type_enum →
  ∃ path,
    createAnnotation ctx
      (create_request u pdfId page type content isPrivate tags) s
    = (Next (ValidationError path), s).
Proof.
  intros Hid Hpage Htype HD Hacc Hbad.
  apply String.eqb_neq in Hid, Htype.
  assert (Qeq_bool page 0 = false) as Hq.
  { destruct (Qeq_bool page 0) eqn:E; [|done]. by apply Qeq_bool_iff in E. }
  unfold createAnnotation, create_request. run_handler.
  rewrite Hid, Hq, Htype. simpl. rewrite HD. simpl.
  assert (hasAccess_annotate D u = true) as ->.
  { unfold hasAccess_annotate.
    destruct Hacc as [Ho| ->]; [by rewrite bool_decide_true|apply orb_true_r]. }
  simpl. destruct (castBoolean (js_or isPrivate (JBool false))); simpl;
    [|by eexists].
  assert (Qle_bool 1 page && bool_decide (type ∈ annotationSchema_type_enum)
          = false) as Hinvalid.
  { destruct Hbad as [Hlt|Hnot].
    - destruct (Qle_bool 1 page) eqn:E; [|done].
      apply Qle_bool_iff in E. by apply Qle_not_lt in E.
    - rewrite (bool_decide_false _ Hnot). apply andb_false_r. }
  unfold annotation_doc_valid. simpl. rewrite Hinvalid. simpl. by eexists.
Qed.

Lemma create_rejects_bad_page_or_type_witness :
  ∃ path,
    createAnnotation sample_ctx
      (create_request bob "d0c000000000000000000001" 1 "underline" sample_content None None)
      (sample_store true)
    = (Next (ValidationError path), sample_store true).
Proof.
  apply (create_rejects_bad_page_or_type sample_ctx bob "d0c000000000000000000001" 1 "underline"
           sample_content None None (sample_store true) (sample_pdf true));
    [discriminate | discriminate | discriminate | reflexivity | by right |].
  right. unfold annotationSchema_type_enum. intros Hin.
  repeat (apply elem_of_cons in Hin as [Hin|Hin]; [discriminate|]).
  by apply elem_of_nil in Hin.
Defined.

(** ** Replies *)

Lemma pushed_reply_valid ctx a r :
  annotation_doc_valid a = true → reply_valid r = true →
  annotation_doc_valid (with_replies ctx a (ann_replies a ++ [r])) = true.
Proof.
  unfold annotation_doc_valid. simpl. intros Ha Hr.
  apply andb_prop in Ha as [Ha Htags]. apply andb_prop in Ha as [Ha Hreplies].
  rewrite Ha, Htags, forallb_app, Hreplies. simpl. by rewrite Hr.
Qed.

Lemma addReply_accepted ctx req s a D text :
  annotations s !! replyreq_id req = Some a →
  ann_id a = replyreq_id req →
  annotation_doc_valid a = true →
  ann_isPrivate a = false →
  pdfs s !! ann_pdf a = Some D →
  pdf_user D = user_id (replyreq_user req) ∨ pdf_isPublic D = true →
  replyreq_text req = Some (JStr text) →
  trim text ≠ "" →
  str_len (trim text) ≤ 500 →
  let a1 := with_replies ctx a
              (ann_replies a ++ [new_reply ctx (replyreq_user req) text]) in
  addReply ctx req s =
    (Json 201 (BAnnotation "Reply added successfully" (Some a1)),
     record (EvSaveAnnotation (replyreq_id req))
       (set_annotations <[replyreq_id req := a1]> s)) ∧
  annotation_doc_valid a1 = true.
Proof.
  intros Ha Hid Hvalid Hpublic HD Hacc Htext Hblank Hlen a1.
  assert (String.eqb text "" = false) as Hne.
  { apply String.eqb_neq. intros ->. by apply Hblank. }
  assert (reply_valid (new_reply ctx (replyreq_user req) text) = true) as Hr.
  { unfold reply_valid, present. simpl. apply String.eqb_neq in Hblank.
    rewrite Hblank. simpl. by apply Z.leb_le. }
  pose proof (pushed_reply_valid ctx a _ Hvalid Hr) as Hv1.
  split; [|done].
  unfold addReply, reply_text_missing. rewrite Htext. run_handler.
  rewrite Hne. simpl. apply String.eqb_neq in Hblank. rewrite Hblank.
  rewrite Ha. simpl. rewrite HD. simpl.
  assert (hasAccess_annotate D (replyreq_user req) = true) as ->.
  { unfold hasAccess_annotate.
    destruct Hacc as [Ho| ->]; [by rewrite bool_decide_true|apply orb_true_r]. }
  rewrite Hpublic. simpl.
  fold (new_reply ctx (replyreq_user req) text). rewrite Hv1. simpl.
  by rewrite Hid, lookup_insert_eq.
Qed.

(** X8.  A reply to an annotation that is not private, on a document the
    requester may read, with a text that is not blank and, trimmed, at
    most 500 characters long, is answered 201: the trimmed text is
    appended after the replies already there, under the requester's id and
    the current time.  Nothing else changes but the update time of the
    annotation: its other fields, every other annotation, the documents
    and the files are as before. *)
Theorem reply_is_appended ctx req s a D text :
  annotations s !! replyreq_id req = Some a →
  ann_id a = replyreq_id req →
  annotation_doc_valid a = true →
  ann_isPrivate a = false →
  pdfs s !! ann_pdf a = Some D →
  pdf_user D = user_id (replyreq_user req) ∨ pdf_isPublic D = true →
  replyreq_text req = Some (JStr text) →
  trim text ≠ "" →
  str_len (trim text) ≤ 500 →
  (∃ shown, (addReply ctx req s).1 =
     Json 201 (BAnnotation "Reply added successfully" shown)) ∧
  ∃ a',
    annotations (addReply ctx req s).2 !! replyreq_id req = Some a' ∧
    ann_replies a' =
      ann_replies a ++
        [ {| reply_id := newId ctx; reply_user := user_id (replyreq_user req);
             reply_text := trim text; reply_createdAt := now ctx |} ] ∧
    same_but_replies a a' ∧
    ann_updatedAt a' = now ctx ∧
    (∀ k, k ≠ replyreq_id req →
          annotations (addReply ctx req s).2 !! k = annotations s !! k) ∧
    pdfs (addReply ctx req s).2 = pdfs s ∧
    files (addReply ctx req s).2 = files s.
Proof.
  intros Ha Hid Hvalid Hpublic HD Hacc Htext Hblank Hlen.
  destruct (addReply_accepted ctx req s a D text) as [-> _]; try done.
  simpl. split; [by eexists|]. eexists.
  split; [by rewrite lookup_insert_eq|]. simpl.
  split; [done|]. split; [by repeat split|]. split; [done|].
  split; [|done]. intros k Hk. by rewrite lookup_insert_ne.
Qed.

Lemma reply_is_appended_witness :
  let req := {| replyreq_user := alice; replyreq_id := "a00000000000000000000001";
                replyreq_text := Some (JStr "  agreed ") |} in
  ∃ a',
    annotations (addReply sample_ctx req (sample_store true)).2
      !! "a00000000000000000000001" = Some a' ∧
    ann_replies a' =
      ann_replies (sample_annotation "a00000000000000000000001"
                     "b0b000000000000000000002" false 1650000000000)
        ++ [new_reply sample_ctx alice "  agreed "].
Proof.
  intros req.
  destruct (reply_is_appended sample_ctx req (sample_store true)
              (sample_annotation "a00000000000000000000001"
                 "b0b000000000000000000002" false 1650000000000)
              (sample_pdf true) "  agreed ")
    as (_ & a' & Hstored & Hreplies & _);
    [reflexivity | reflexivity | reflexivity | reflexivity | reflexivity
    | by left | reflexivity | discriminate | done |].
  exists a'. split; [exact Hstored | exact Hreplies].
Defined.

(** X9.  A reply whose text is missing, empty or only white space is
    answered 400 before the annotation is looked up: the store is left as
    it was, whether or not the annotation exists. *)
Theorem blank_reply_is_refused ctx req s :
  replyreq_text req = None ∨
  (∃ text, replyreq_text req = Some (JStr text) ∧ trim text = "") →
  addReply ctx req s = (Json 400 (BMessage false "Reply text is required"), s).
Proof.
  unfold addReply, reply_text_missing. run_handler.
  intros [->|(text & -> & Hblank)]; simpl; [done|].
  destruct (String.eqb text ""); simpl; [done|].
  by rewrite Hblank.
Qed.

Lemma blank_reply_is_refused_witness :
  addReply sample_ctx
    {| replyreq_user := bob; replyreq_id := "a000000000000000000000ff";
       replyreq_text := Some (JStr "   ") |} (sample_store true)
  = (Json 400 (BMessage false "Reply text is required"), sample_store true).
Proof.
  apply blank_reply_is_refused. right. exists "   ". split; reflexivity.
Defined.

(** ** Updating annotations *)

(** X10.  An accepted update of an annotation changes nothing but its
    content, its two flags, its tags and its update time, in the stored
    record as in the document of the response: id, document, author,
    page, type, replies and creation time are kept.  The stored content is
    kept when the body has none, the tags when it has none, and a flag is
    changed only by a boolean in the body: a string such as 'true' is
    ignored.  No other annotation and no document is touched. *)
Theorem update_frame ctx req s a message shown :
  annotations s !! update_id req = Some a →
  (updateAnnotation ctx req s).1 = Json 200 (BAnnotation message (Some shown)) →
  ∃ a',
    annotations (updateAnnotation ctx req s).2 !! update_id req = Some a' ∧
    same_frame a a' ∧ same_frame a shown ∧
    ann_isPrivate shown = ann_isPrivate a' ∧
    ann_isResolved shown = ann_isResolved a' ∧
    ann_tags shown = ann_tags a' ∧
    ann_updatedAt a' = now ctx ∧
    (update_content req = None → ann_content a' = ann_content a) ∧
    (update_tags req = None → ann_tags a' = ann_tags a) ∧
    (∀ b, update_isPrivate req = Some (JBool b) → ann_isPrivate a' = b) ∧
    ((∀ b, update_isPrivate req ≠ Some (JBool b)) →
       ann_isPrivate a' = ann_isPrivate a) ∧
    (∀ b, update_isResolved req = Some (JBool b) → ann_isResolved a' = b) ∧
    ((∀ b, update_isResolved req ≠ Some (JBool b)) →
       ann_isResolved a' = ann_isResolved a) ∧
    (∀ k, k ≠ update_id req →
          annotations (updateAnnotation ctx req s).2 !! k = annotations s !! k) ∧
    pdfs (updateAnnotation ctx req s).2 = pdfs s.
Proof.
  intros Ha. rewrite (updateAnnotation_outcome _ _ _ _ Ha).
  case_bool_decide; [done|].
  destruct (update_valid (updateFields a req)); [|done].
  simpl. intros [= <- <-].
  exists (apply_update ctx (updateFields a req) a).
  split; [by rewrite lookup_insert_eq|].
  unfold apply_update, updateFields. simpl.
  split; [by repeat split|]. split; [by repeat split|].
  split_and!; try done.
  - by intros ->.
  - by intros ->.
  - by intros b ->.
  - intros Hnot. destruct (update_isPrivate req) as [[]|]; try done.
    by edestruct Hnot.
  - by intros b ->.
  - intros Hnot. destruct (update_isResolved req) as [[]|]; try done.
    by edestruct Hnot.
  - intros k Hk. by rewrite lookup_insert_ne.
Qed.

Lemma sample_flag_update_accepted :
  let req := {| update_user := bob; update_id := "a00000000000000000000001";
                update_content := None;
                update_isPrivate := Some (JStr "true");
                update_isResolved := Some (JBool true); update_tags := None |} in
  ∃ shown,
    (updateAnnotation sample_ctx req (sample_store true)).1
    = Json 200 (BAnnotation "Annotation updated successfully" (Some shown)).
Proof. eexists. vm_compute. reflexivity. Qed.

Lemma update_frame_witness :
  let req := {| update_user := bob; update_id := "a00000000000000000000001";
                update_content := None;
                update_isPrivate := Some (JStr "true");
                update_isResolved := Some (JBool true); update_tags := None |} in
  let a := sample_annotation "a00000000000000000000001"
             "b0b000000000000000000002" false 1650000000000 in
  ∃ a',
    annotations (updateAnnotation sample_ctx req (sample_store true)).2
      !! "a00000000000000000000001" = Some a' ∧
    ann_isPrivate a' = ann_isPrivate a ∧ ann_isResolved a' = true ∧
    ann_content a' = ann_content a.
Proof.
  intros req a. destruct sample_flag_update_accepted as [shown Hshown].
  destruct (update_frame sample_ctx req (sample_store true) a _ shown
              eq_refl Hshown)
    as (a' & Hstored & _ & _ & _ & _ & _ & _ & Hcontent & _ & _ & Hprivate
        & Hresolved & _).
  exists a'. split; [exact Hstored|]. split; [by apply Hprivate|].
  split; [by apply Hresolved | by apply Hcontent].
Defined.

(** ** Deleting documents *)



(** X12.  A permitted delete of a document removes its file from the
    disk and touches nothing else: every other file stays, every other
    document stays, and an annotation that references another document is
    stored afterwards exactly if it was before. *)
Theorem delete_pdf_frame req s D :
  pdfs s !! pdfauth_id req = Some D →
  pdf_id D = pdfauth_id req →
  owner_or_admin (pdf_user D) (pdfauth_user req) →
  let s' := (deletePdf req s).2 in
  (pdf_filePath D ∉ files s') ∧
  (∀ p, p ≠ pdf_filePath D → p ∈ files s' ↔ p ∈ files s) ∧
  (∀ k, k ≠ pdfauth_id req → pdfs s' !! k = pdfs s !! k) ∧
  (∀ k a, ann_pdf a ≠ pdfauth_id req →
          annotations s' !! k = Some a ↔ annotations s !! k = Some a) ∧
  users s' = users s.
Proof.
  intros HD Hid Hperm. rewrite (deletePdf_permitted _ _ _ HD Hperm), Hid.
  case_bool_decide as Hfile; simpl.
  - split_and!; try done.
    + apply removed_not_on_disk.
    + intros p Hp. rewrite elem_of_difference, elem_of_singleton.
      split; [by intros [? _]|]. by intros ?.
    + intros k Hk. by rewrite lookup_delete_ne.
    + intros k a Hne. rewrite map_lookup_filter_Some.
      split; [by intros [? _]|]. by intros ?.
  - split_and!; try done.
    + intros k Hk. by rewrite lookup_delete_ne.
    + intros k a Hne. rewrite map_lookup_filter_Some.
      split; [by intros [? _]|]. by intros ?.
Qed.

Lemma delete_pdf_frame_witness :
  let req := {| pdfauth_id := "d0c000000000000000000001"; pdfauth_user := root |} in
  ("uploads/pdfs/f1.pdf" ∉ files (deletePdf req (sample_store false)).2) ∧
  users (deletePdf req (sample_store false)).2 = users (sample_store false).
Proof.
  intros req.
  destruct (delete_pdf_frame req (sample_store false) (sample_pdf false))
    as (Hfile & _ & _ & _ & Husers); [reflexivity | reflexivity | by right |].
  split; [exact Hfile | exact Husers].
Defined.

(** The hook the schema registers before a removal deletes exactly
    the annotations that reference the document: an annotation is stored
    after the hook exactly if it was stored before and references another
    document, and the documents themselves are untouched. *)
Theorem pre_remove_hook_scope (this : PDF) s :
  (∀ k a, annotations (pdfSchema_pre_remove this s).2 !! k = Some a ↔
          annotations s !! k = Some a ∧ ann_pdf a ≠ pdf_id this) ∧
  pdfs (pdfSchema_pre_remove this s).2 = pdfs s.
Proof.
  unfold pdfSchema_pre_remove. run_handler. split; [|done].
  intros k a. by rewrite map_lookup_filter_Some.
Qed.

(** ** Reading documents *)

(** X13.  A viewer who may read a document gets its file streamed, with
    the stored size as content length, exactly when the file is on disk
    under the recorded path; when it is not, the answer is 404. *)
Theorem file_read_needs_file_on_disk req s D :
  pdfs s !! pdfreq_id req = Some D →
  canView D (pdfreq_user req) →
  (pdf_filePath D ∈ files s →
     ∃ disposition,
       getPdfFile req s =
         (Stream "application/pdf" disposition (pdf_fileSize D) (pdf_filePath D),
          s)) ∧
  (pdf_filePath D ∉ files s →
     getPdfFile req s =
       (Json 404 (BMessage false "PDF file not found on server"), s)).
Proof.
  intros HD Hview. rewrite (getPdfFile_outcome _ _ _ HD).
  apply hasAccess_file_canView in Hview. rewrite Hview. split; intros Hfile.
  - rewrite bool_decide_true by done. by eexists.
  - by rewrite bool_decide_false.
Qed.

Lemma file_read_needs_file_on_disk_witness :
  getPdfFile {| pdfreq_id := "d0c000000000000000000001"; pdfreq_user := Some alice |}
    {| pdfs := pdfs (sample_store false);
       annotations := annotations (sample_store false);
       users := users (sample_store false); files := ∅; journal := [] |}
  = (Json 404 (BMessage false "PDF file not found on server"),
     {| pdfs := pdfs (sample_store false);
        annotations := annotations (sample_store false);
        users := users (sample_store false); files := ∅; journal := [] |}).
Proof.
  eapply (file_read_needs_file_on_disk
            {| pdfreq_id := "d0c000000000000000000001"; pdfreq_user := Some alice |} _
            (sample_pdf false));
    [reflexivity | right; by exists alice | apply not_elem_of_empty].
Defined.

(** X14.  The detail of a public document whose owner's user record no
    longer exists cannot be built: the read ends in an error, but the
    touched document, its access counter incremented, has already been
    saved. *)
Theorem detail_read_of_ownerless_document ctx req s D :
  pdfs s !! pdfreq_id req = Some D →
  pdf_id D = pdfreq_id req →
  users s !! pdf_user D = None →
  pdf_isPublic D = true →
  pdf_doc_valid D = true →
  (∃ e, (getPdf ctx req s).1 = Next e) ∧
  pdf_accessCount <$> pdfs (getPdf ctx req s).2 !! pdfreq_id req
    = Some (pdf_accessCount D + 1).
Proof.
  intros HD Hid Ho Hpub Hvalid.
  rewrite (getPdf_owner_gone _ _ _ _ HD Ho Hpub Hvalid). simpl.
  split; [by eexists|]. by rewrite Hid, lookup_insert_eq.
Qed.

Lemma detail_read_of_ownerless_document_witness :
  let req := {| pdfreq_id := "d0c000000000000000000001"; pdfreq_user := None |} in
  (∃ e, (getPdf sample_ctx req ownerless_store).1 = Next e) ∧
  pdf_accessCount <$> pdfs (getPdf sample_ctx req ownerless_store).2 !! "d0c000000000000000000001"
    = Some (7 + 1).
Proof.
  intros req.
  apply (detail_read_of_ownerless_document sample_ctx req ownerless_store
           (sample_pdf true)); reflexivity.
Defined.

(** ** Listing with filters *)

Lemma newest_first_total : Total newest_first.
Proof. intros a b. unfold newest_first. lia. Qed.

Lemma nonempty_Some s t : nonempty s = Some t ↔ s = Some t ∧ t ≠ "".
Proof.
  unfold nonempty. destruct s as [x|]; [|by split; [|intros [? _]]].
  destruct (String.eqb x "") eqn:E.
  - apply String.eqb_eq in E. split; [done|]. intros [[= ->] ?]. done.
  - apply String.eqb_neq in E. split.
    + by intros [= ->].
    + by intros [[= ->] _].
Qed.

Lemma ann_matches_spec q a :
  ann_matches q a ↔
  ann_pdf a = q_pdf q ∧
  (∀ b, q_isPrivate q = Some b → ann_isPrivate a = b) ∧
  (∀ n, q_page q = Some n → (ann_page a == inject_Z n)%Q) ∧
  (∀ t, q_type q = Some t → ann_type a = t) ∧
  (∀ b, q_isResolved q = Some b → ann_isResolved a = b).
Proof.
  unfold ann_matches. rewrite !andb_True, bool_decide_spec.
  destruct (q_isPrivate q) as [b1|], (q_page q) as [n|], (q_type q) as [t|],
    (q_isResolved q) as [b2|];
    rewrite ?Is_true_true, ?Bool.eqb_true_iff, ?Qeq_bool_iff, ?String.eqb_eq;
    (split;
     [ intros ((((? & ?) & ?) & ?) & ?); split_and!; try done;
       intros ? [= <-]; done
     | intros (? & H1 & H2 & H3 & H4); split_and!; try done;
       first [by apply H1 | by apply H2 | by apply H3 | by apply H4] ]).
Qed.

(** X15.  For a viewer with read access, the list route answers 200 with
    the annotations newest first, their number as count, and exactly the
    stored annotations of the document that the viewer may see and that
    pass the filters of the query string: the page when it parses as a
    number, the type when it is not empty, and the resolved flag, where any
    value other than 'true' selects the unresolved ones. *)
Theorem filtered_listing req s D :
  pdfs s !! list_pdfId req = Some D →
  pdf_user D = user_id (list_user req) ∨ pdf_isPublic D = true →
  (∀ p, list_page req = Some p → p ≠ "" → is_Some (parseInt p)) →
  ∃ anns,
    listAnnotations req s = (Json 200 (BAnnotations (length anns) anns), s) ∧
    Sorted newest_first anns ∧
    ∀ a, a ∈ anns ↔
      stored_for (list_pdfId req) s a ∧
      (pdf_user D = user_id (list_user req) ∨ ann_isPrivate a = false) ∧
      (∀ p n, list_page req = Some p → p ≠ "" → parseInt p = Some n →
              (ann_page a == inject_Z n)%Q) ∧
      (∀ t, list_type req = Some t → t ≠ "" → ann_type a = t) ∧
      (∀ r, list_isResolved req = Some r →
            ann_isResolved a = String.eqb r "true").
Proof.
  intros HD Hacc Hpage.
  assert (hasAccess_annotate D (list_user req) = true) as Haccess.
  { unfold hasAccess_annotate.
    destruct Hacc as [Ho| ->]; [by rewrite bool_decide_true|apply orb_true_r]. }
  assert (∃ page : option Z,
            (∀ n, page = Some n ↔
                  ∃ p, list_page req = Some p ∧ p ≠ "" ∧ parseInt p = Some n) ∧
            listAnnotations req s =
              (let anns :=
                 merge_sort newest_first
                   (filter (λ a, ann_matches
                      {| q_pdf := list_pdfId req;
                         q_isPrivate :=
                           if bool_decide (pdf_user D ≠ user_id (list_user req))
                           then Some false else None;
                         q_page := page;
                         q_type := nonempty (list_type req);
                         q_isResolved :=
                           (λ v, String.eqb v "true") <$> list_isResolved req |} a)
                      (all_annotations s)) in
               (Json 200 (BAnnotations (length anns) anns), s)))
    as (page & Hparsed & ->).
  { unfold listAnnotations. run_handler. rewrite HD. simpl. rewrite Haccess.
    simpl. destruct (nonempty (list_page req)) as [p|] eqn:Hp.
    - apply nonempty_Some in Hp as [Hp Hne].
      destruct (Hpage p Hp Hne) as [n Hn]. rewrite Hn. exists (Some n).
      split; [|done]. intros n'. split.
      + intros [= <-]. by exists p.
      + intros (p' & Hp' & _ & Hn'). congruence.
    - exists None. split; [|done]. intros n. split; [done|].
      intros (p & Hp' & Hne & _).
      assert (nonempty (list_page req) = Some p) as Hs by by apply nonempty_Some.
      congruence. }
  simpl. eexists. split; [done|].
  split; [apply Sorted_merge_sort, newest_first_total|].
  intros a. rewrite elem_of_merge_sort_newest, list_elem_of_filter,
    ann_matches_spec. unfold stored_for. simpl.
  split.
  - intros ((Hpdf & Hpriv & Hpg & Hty & Hres) & Hin). split_and!; try done.
    + case_bool_decide as Ho; [right; by apply Hpriv|left].
      by destruct (decide (pdf_user D = user_id (list_user req))).
    + intros p n Hp Hne Hn. apply Hpg, Hparsed. by exists p.
    + intros t Ht Hne. apply Hty. by apply nonempty_Some.
    + intros r Hr. apply Hres. by rewrite Hr.
  - intros ((Hin & Hpdf) & Hvis & Hpg & Hty & Hres). split; [|done].
    split_and!; try done.
    + intros b Hb. case_bool_decide as Ho; [|done]. injection Hb as <-.
      by destruct Hvis.
    + intros n Hn. apply Hparsed in Hn as (p & Hp & Hne & Hn). by eapply Hpg.
    + intros t Ht. apply nonempty_Some in Ht as [Ht Hne]. by apply Hty.
    + intros b Hb. destruct (list_isResolved req) as [r|]; [|done].
      injection Hb as <-. by apply Hres.
Qed.

Lemma filtered_listing_witness :
  ∃ anns,
    listAnnotations
      {| list_user := alice; list_pdfId := "d0c000000000000000000001"; list_page := Some "1";
         list_type := Some "text"; list_isResolved := Some "no" |}
      (sample_store false)
    = (Json 200 (BAnnotations (length anns) anns), sample_store false) ∧
    Sorted newest_first anns.
Proof.
  destruct (filtered_listing
              {| list_user := alice; list_pdfId := "d0c000000000000000000001"; list_page := Some "1";
                 list_type := Some "text"; list_isResolved := Some "no" |}
              (sample_store false) (sample_pdf false))
    as (anns & Hout & Hsorted & _); [reflexivity | by left | |].
  - intros p [= <-] _. by eexists.
  - exists anns. split; [exact Hout | exact Hsorted].
Defined.

(** ** Updating documents *)



(** X17.  An accepted update of a document is made by its owner or an
    admin and is stored under the same id.  It never changes the owner,
    the file name, path, size and type, the status, the access counter or
    the times of creation and last access, and it touches no other
    document and no annotation.  The title is kept when the body has none
    or an empty one; the visibility is set by a boolean and kept
    otherwise, so that a string such as 'true' is ignored; the tags are
    kept when the body has none and emptied when it gives something that
    is not an array. *)
Theorem update_pdf_frame ctx req s D summary s' :
  pdfs s !! pdfupd_id req = Some D →
  updatePdf ctx req s = (PdfUpdated summary, s') →
  owner_or_admin (pdf_user D) (pdfupd_user req) ∧
  ∃ D',
    pdfs s' !! pdfupd_id req = Some D' ∧
    pdf_id D' = pdf_id D ∧ pdf_user D' = pdf_user D ∧
    pdf_filename D' = pdf_filename D ∧
    pdf_originalName D' = pdf_originalName D ∧
    pdf_filePath D' = pdf_filePath D ∧ pdf_fileSize D' = pdf_fileSize D ∧
    pdf_mimeType D' = pdf_mimeType D ∧ pdf_status D' = pdf_status D ∧
    pdf_accessCount D' = pdf_accessCount D ∧
    pdf_lastAccessed D' = pdf_lastAccessed D ∧
    pdf_createdAt D' = pdf_createdAt D ∧
    sum_title summary = pdf_title D' ∧ sum_isPublic summary = pdf_isPublic D' ∧
    (pdfupd_title req = None ∨ pdfupd_title req = Some "" →
       pdf_title D' = pdf_title D) ∧
    (∀ b, pdfupd_isPublic req = Some (JBool b) → pdf_isPublic D' = b) ∧
    ((∀ b, pdfupd_isPublic req ≠ Some (JBool b)) →
       pdf_isPublic D' = pdf_isPublic D) ∧
    (pdfupd_tags req = None → pdf_tags D' = pdf_tags D) ∧
    (∀ v, pdfupd_tags req = Some v → truthy v = true → (∀ l, v ≠ JArr l) →
          pdf_tags D' = []) ∧
    (∀ k, k ≠ pdfupd_id req → pdfs s' !! k = pdfs s !! k) ∧
    annotations s' = annotations s.
Proof.
  intros HD. unfold updatePdf, answer, PDF_findByIdAndUpdate. run_handler.
  rewrite HD. simpl.
  destruct (not_owner_nor_admin (pdf_user D) (pdfupd_user req)) eqn:Hperm;
    simpl; [done|].
  apply not_owner_nor_admin_false in Hperm.
  destruct (cast_pdf_update (pdf_updateFields req))
    as [[[[title description] tags] isPublic]|] eqn:Hcast; simpl; [|done].
  match goal with |- context [negb ?v] => destruct v end; simpl; [|done].
  rewrite HD. simpl. intros [= <- <-]. split; [done|].
  exists (apply_pdf_update ctx title description tags isPublic D).
  split; [simpl; by rewrite lookup_insert_eq|]. simpl.
  unfold cast_pdf_update, pdf_updateFields in Hcast. simpl in Hcast.
  assert (title = trim <$> nonempty (pdfupd_title req) ∧
          isPublic = if_boolean (pdfupd_isPublic req) ∧
          (pdfupd_tags req = None → tags = None) ∧
          (∀ v, pdfupd_tags req = Some v → truthy v = true →
                (∀ l, v ≠ JArr l) → tags = Some [])) as (-> & -> & Hnone & Hclear).
  { destruct (pdfupd_tags req) as [v|]; simpl in Hcast.
    - destruct (truthy v) eqn:Hv; simpl in Hcast.
      + destruct (mapM _ _) as [tags'|] eqn:Hm; simpl in Hcast; [|done].
        injection Hcast as <- <- <- <-. split_and!; try done.
        intros v' [= <-] _ Hnot.
        destruct v as [| | | |l|];
          try (simpl in Hm; by injection Hm as <-).
        by destruct (Hnot l).
      + injection Hcast as <- <- <- <-. split_and!; try done.
        intros v' [= <-] Hv'. congruence.
    - injection Hcast as <- <- <- <-. split_and!; done. }
  split_and!; try done.
  - intros [->| ->]; done.
  - by intros b ->.
  - intros Hnot. destruct (pdfupd_isPublic req) as [[| b | | | |]|]; try done.
    by destruct (Hnot b).
  - intros Ht. by rewrite (Hnone Ht).
  - intros v Hv Ht Hnot. by rewrite (Hclear v Hv Ht Hnot).
  - intros k Hk. by rewrite lookup_insert_ne.
Qed.

Lemma sample_pdf_update_accepted :
  updatePdf sample_ctx sample_pdf_update (sample_store false)
  = (PdfUpdated sample_pdf_summary,
     (updatePdf sample_ctx sample_pdf_update (sample_store false)).2).
Proof. vm_compute. reflexivity. Qed.

Lemma update_pdf_frame_witness :
  ∃ D',
    pdfs (updatePdf sample_ctx sample_pdf_update (sample_store false)).2
      !! "d0c000000000000000000001" = Some D' ∧
    pdf_user D' = "a11ce0000000000000000001" ∧ pdf_title D' = "Paper" ∧
    pdf_isPublic D' = false ∧ pdf_tags D' = [].
Proof.
  destruct (update_pdf_frame sample_ctx sample_pdf_update (sample_store false)
              (sample_pdf false) _ _ eq_refl sample_pdf_update_accepted)
    as (_ & D' & Hstored & _ & Huser & _ & _ & _ & _ & _ & _ & _ & _ & _ & _ & _
        & Htitle & _ & Hpublic & _ & Htags & _).
  exists D'. split; [exact Hstored|]. split; [exact Huser|].
  split; [by apply Htitle; right|]. split.
  - by apply Hpublic.
  - by apply (Htags (JStr "draft")).
Defined.

(** ** Deleting replies *)

Lemma may_not_delete_reply_false r a u :
  may_not_delete_reply r a u = false ↔ may_delete_reply r a u.
Proof.
  unfold may_not_delete_reply, may_delete_reply.
  rewrite !andb_false_iff, !bool_decide_eq_false. split.
  - intros [[H|H]|H].
    + left. by destruct (decide (reply_user r = user_id u)).
    + right. left. by destruct (decide (ann_user a = user_id u)).
    + right. right. by destruct (decide (user_role u = "admin")).
  - intros [H|[H|H]]; [left; left|left; right|right]; intros Hn; by destruct Hn.
Qed.








(** ** Pagination *)

Lemma parseInt_or_nonzero s d : d ≠ 0 → parseInt_or s d ≠ 0.
Proof.
  intros Hd. unfold parseInt_or. destruct (s ≫= parseInt) as [n|]; [|done].
  destruct (n =? 0) eqn:E; [done|]. by apply Z.eqb_neq.
Qed.

Lemma page_of_sublist {A} skip limit (l : list A) :
  page_of skip limit l `sublist_of` l.
Proof.
  unfold page_of. destruct (limit =? 0); [apply sublist_drop|].
  etrans; [apply sublist_take | apply sublist_drop].
Qed.

Lemma page_of_elem {A} skip limit (l : list A) x : x ∈ page_of skip limit l → x ∈ l.
Proof. intros Hx. eapply elem_of_sublist; [done | apply page_of_sublist]. Qed.

Lemma page_of_length {A} skip limit (l : list A) :
  limit ≠ 0 →
  length (page_of skip limit l)
  = (Z.to_nat (Z.abs limit) `min` (length l - Z.to_nat skip))%nat.
Proof.
  intros Hl. unfold page_of. apply Z.eqb_neq in Hl. rewrite Hl.
  by rewrite length_take, length_drop.
Qed.

Lemma page_of_sorted {A} (R : relation A) skip limit (l : list A) :
  Sorted R l → Sorted R (page_of skip limit l).
Proof.
  intros Hs. unfold page_of.
  assert (∀ n (k : list A), Sorted R k → Sorted R (drop n k)) as Hdrop.
  { intros n. induction n as [|n IH]; intros k Hk; [done|].
    destruct k as [|y k]; [done|]. simpl. apply IH. by inversion Hk. }
  assert (∀ n (k : list A), Sorted R k → Sorted R (take n k)) as Htake.
  { intros n. induction n as [|n IH]; intros k Hk; [constructor|].
    destruct k as [|y k]; [constructor|]. simpl. inversion Hk as [|? ? Hk' Hhd].
    constructor; [by apply IH|].
    destruct k as [|z k]; [destruct n; constructor|].
    destruct n; [constructor|]. simpl. constructor. by inversion Hhd. }
  destruct (limit =? 0); [by apply Hdrop|]. by apply Htake, Hdrop.
Qed.

Lemma Math_ceil_div_spec total limit :
  0 < limit →
  (Math_ceil_div total limit - 1) * limit < Z.of_nat total
  ≤ Math_ceil_div total limit * limit.
Proof.
  intros Hl. unfold Math_ceil_div.
  pose proof (Z.div_mod (- Z.of_nat total) limit) as Hdm.
  pose proof (Z.mod_pos_bound (- Z.of_nat total) limit Hl) as Hb.
  nia.
Qed.





Section ListingProperties.

Variable regex_i : string → option (string → bool).






End ListingProperties.



Lemma my_annotations_spec req s a :
  a ∈ my_annotations req s ↔
  a ∈ all_annotations s ∧ ann_user a = user_id (my_user req) ∧
  (∀ t, nonempty (my_type req) = Some t → ann_type a = t) ∧
  (∀ r, my_isResolved req = Some r → ann_isResolved a = String.eqb r "true").
Proof.
  unfold my_annotations, my_matches.
  rewrite list_elem_of_filter, !andb_True, bool_decide_spec.
  destruct (nonempty (my_type req)) as [t|], (my_isResolved req) as [r|]; simpl;
    rewrite ?Is_true_true, ?Bool.eqb_true_iff, ?String.eqb_eq;
    (split;
     [ intros (((? & ?) & ?) & ?); split_and!; try done; by intros ? [= <-]
     | intros (? & ? & Ht & Hr); split_and!; try done;
       first [by apply Ht | by apply Hr] ]).
Qed.

Lemma listMyAnnotations_page req s :
  let page := parseInt_or (my_page req) 1 in
  let limit := parseInt_or (my_limit req) 20 in
  let found := page_of ((page - 1) * limit) limit
                 (merge_sort newest_first (my_annotations req s)) in
  0 ≤ (page - 1) * limit →
  listMyAnnotations req s =
    (AnnotationPage (length found) (length (my_annotations req s)) page
       (Math_ceil_div (length (my_annotations req s)) limit) found, s).
Proof.
  intros page limit found Hskip.
  unfold listMyAnnotations, answer, check_skip. run_handler.
  fold page limit. apply Z.ltb_ge in Hskip. by rewrite Hskip.
Qed.

(** X22.  The listing of one's own annotations never writes, and every
    page it answers holds only stored annotations of the requester,
    newest first, the count being the number of entries and at most the
    limit (20 unless the query says otherwise).  Without filters the total
    is the number of all annotations of the requester, private ones
    included, and a first page that is large enough holds exactly these.
    With a positive limit [pages] is the least number of pages of that
    size that hold the total. *)
Theorem my_listing req s :
  let page := parseInt_or (my_page req) 1 in
  let limit := parseInt_or (my_limit req) 20 in
  (listMyAnnotations req s).2 = s ∧
  (1 ≤ page → 0 < limit →
   ∃ count total pages anns,
     (listMyAnnotations req s).1 = AnnotationPage count total page pages anns) ∧
  (∀ count total page' pages anns,
     (listMyAnnotations req s).1 = AnnotationPage count total page' pages anns →
     page' = page ∧
     count = length anns ∧
     (0 < limit → Z.of_nat count ≤ limit) ∧
     (count ≤ total)%nat ∧
     (∀ a, a ∈ anns →
           a ∈ all_annotations s ∧ ann_user a = user_id (my_user req)) ∧
     Sorted newest_first anns ∧
     (nonempty (my_type req) = None → my_isResolved req = None →
      total = length (filter (λ a, ann_user a = user_id (my_user req))
                        (all_annotations s)) ∧
      (page = 1 → 0 < limit → Z.of_nat total ≤ limit →
       ∀ a, a ∈ anns ↔
            a ∈ all_annotations s ∧ ann_user a = user_id (my_user req))) ∧
     (0 < limit →
      (pages - 1) * limit < Z.of_nat total ≤ pages * limit)).
Proof.
  intros page limit.
  assert (limit ≠ 0) as Hlimit by by apply parseInt_or_nonzero.
  destruct (decide (0 ≤ (page - 1) * limit)) as [Hskip|Hskip].
  2:{ assert (listMyAnnotations req s =
              (Plain (Next (PlainError "Skip value must be non-negative")), s))
        as ->.
      { unfold listMyAnnotations, answer, check_skip. run_handler.
        fold page limit.
        assert (((page - 1) * limit <? 0) = true) as -> by (apply Z.ltb_lt; lia).
        done. }
      split; [done|]. split; [intros ? ?; nia|]. by intros ? ? ? ? ?. }
  rewrite (listMyAnnotations_page req s Hskip). fold page limit. simpl.
  split; [done|]. split; [intros _ _; by eexists _, _, _, _|].
  intros count total page' pages anns [= <- <- <- <- <-].
  split_and!.
  - done.
  - done.
  - intros Hpos. rewrite page_of_length by done. lia.
  - etrans; [apply sublist_length, page_of_sublist|].
    by rewrite merge_sort_Permutation.
  - intros a Ha.
    apply page_of_elem, elem_of_merge_sort_newest, my_annotations_spec in Ha
      as (? & ? & _). done.
  - apply page_of_sorted, Sorted_merge_sort, newest_first_total.
  - intros Ht Hr.
    assert (my_annotations req s
            = filter (λ a, ann_user a = user_id (my_user req)) (all_annotations s))
      as Hall.
    { unfold my_annotations. apply list_filter_iff. intros a.
      unfold my_matches. rewrite Ht, Hr. simpl.
      by rewrite !andb_true_r, bool_decide_spec. }
    split; [by rewrite Hall|].
    intros Hfirst Hpos Hfits a. unfold page_of. rewrite Hfirst.
    replace ((1 - 1) * limit) with 0 by lia. simpl.
    apply Z.eqb_neq in Hlimit. rewrite Hlimit, take_ge.
    + change (Z.to_nat 0) with 0%nat. rewrite drop_0.
      by rewrite elem_of_merge_sort_newest, Hall, list_elem_of_filter, (comm and).
    + change (Z.to_nat 0) with 0%nat. rewrite drop_0, merge_sort_Permutation. lia.
  - intros Hpos. by apply Math_ceil_div_spec.
Qed.

Lemma my_listing_witness :
  ∃ count total pages anns,
    (listMyAnnotations
       {| my_user := alice; my_page := Some "1"; my_limit := Some "5";
          my_type := None; my_isResolved := None |} (sample_store true)).1
    = AnnotationPage count total 1 pages anns.
Proof.
  destruct (my_listing
              {| my_user := alice; my_page := Some "1"; my_limit := Some "5";
                 my_type := None; my_isResolved := None |} (sample_store true))
    as (_ & Hpage & _).
  apply Hpage; done.
Defined.

(** ** How the routes compose *)

Section UploadComposition.

Variable JSON_parse : string → option JValue.
Variable path_extname : string → string.
Variable path_join : string → string → string.
Variable MAX_FILE_SIZE : option string.

(** What a created upload did, in full, under a size limit that is not
    negative. *)
Lemma uploadRoute_created_inv ctx req s message pdf s' :
  0 ≤ limits_fileSize MAX_FILE_SIZE →
  uploadRoute JSON_parse path_extname path_join MAX_FILE_SIZE ctx req s
    = (Json 201 (BUploaded message pdf), s') →
  ∃ part isPublic tags,
    upload_part req = Some part ∧
    castBoolean (upload_isPublic_value req) = Some isPublic ∧
    castStringArray (upload_parsedTags JSON_parse req) = Some tags ∧
    let path := path_join uploadDir (storage_filename path_extname ctx part) in
    pdf =
      {| pdf_id := newId ctx;
         pdf_title := trim (str_or (upload_title req) (part_originalname part));
         pdf_description := trim (str_or (upload_description req) "");
         pdf_filename := storage_filename path_extname ctx part;
         pdf_originalName := part_originalname part;
         pdf_filePath := path; pdf_fileSize := part_size part;
         pdf_mimeType := part_mimetype part; pdf_pageCount := None;
         pdf_user := user_id (upload_user req); pdf_isPublic := isPublic;
         pdf_tags := trim_all tags; pdf_status := "ready";
         pdf_accessCount := 0; pdf_lastAccessed := now ctx;
         pdf_createdAt := now ctx; pdf_updatedAt := now ctx |} ∧
    s' = record (EvInsertPdf (newId ctx))
           (set_pdfs <[newId ctx := pdf]>
              (record (EvWriteFile path)
                 (set_files (λ fs, fs ∪ {[path]}) s))) ∧
    pdfs s !! newId ctx = None.
Proof.
  intros Hlimit.
  unfold uploadRoute, upload_single, uploadHandler, PDF_create, fileFilter.
  unfold handleMulterError. run_handler.
  destruct (upload_part req) as [part|]; simpl; [|done].
  destruct (negb (part_fieldname part =? "pdf")%string); simpl; [done|].
  destruct (part_mimetype part =? "application/pdf")%string; simpl; [|done].
  destruct ((0 <=? limits_fileSize MAX_FILE_SIZE)
            && (limits_fileSize MAX_FILE_SIZE <=? part_size part));
    simpl; [done|].
  assert ((limits_fileSize MAX_FILE_SIZE <? 0) = false) as ->
    by (apply Z.ltb_ge; lia).
  destruct (castBoolean (upload_isPublic_value req)) as [isPublic|] eqn:Hb;
    simpl; [|done].
  destruct (castStringArray (upload_parsedTags JSON_parse req)) as [tags|]
    eqn:Ht; simpl; [|done].
  match goal with |- context [negb (pdf_doc_valid ?x)] =>
    destruct (pdf_doc_valid x) end; simpl; [|done].
  destruct (pdfs s !! newId ctx) eqn:Hfresh; simpl; [done|].
  intros [= <- <- <-]. by exists part, isPublic, tags.
Qed.

(** X23.  With a size limit that is not negative, a created document
    records what was sent: the original name and the size of the file; as
    title the trimmed title field, or the trimmed original file name when
    the form has no title or an empty one; and as visibility the
    [isPublic] field, where 'false' gives a private and 'true' a public
    document. *)
Theorem uploaded_document_metadata ctx req s message pdf s' :
  0 ≤ limits_fileSize MAX_FILE_SIZE →
  uploadRoute JSON_parse path_extname path_join MAX_FILE_SIZE ctx req s
    = (Json 201 (BUploaded message pdf), s') →
  ∃ part,
    upload_part req = Some part ∧
    pdf_originalName pdf = part_originalname part ∧
    pdf_fileSize pdf = part_size part ∧
    (∀ title, upload_title req = Some title → title ≠ "" →
              pdf_title pdf = trim title) ∧
    (upload_title req = None ∨ upload_title req = Some "" →
       pdf_title pdf = trim (part_originalname part)) ∧
    (upload_isPublic req = Some "false" → pdf_isPublic pdf = false) ∧
    (upload_isPublic req = Some "true" → pdf_isPublic pdf = true).
Proof.
  intros Hlimit Hout.
  destruct (uploadRoute_created_inv _ _ _ _ _ _ Hlimit Hout)
    as (part & isPublic & tags & Hpart & Hb & _ & -> & _ & _).
  exists part. simpl. split_and!; try done.
  - intros title -> Hne. unfold str_or. apply String.eqb_neq in Hne.
    by rewrite Hne.
  - by intros [->| ->].
  - intros Hf. unfold upload_isPublic_value in Hb. rewrite Hf in Hb.
    simpl in Hb. by injection Hb.
  - intros Hf. unfold upload_isPublic_value in Hb. rewrite Hf in Hb.
    simpl in Hb. by injection Hb.
Qed.

(** X24.  What was uploaded can be read back: with a size limit that is
    not negative, right after a created upload the file route streams to
    the uploader the file under the path the document records, with the
    size of the uploaded file as content length. *)
Theorem uploaded_file_is_served ctx req s message pdf s' :
  0 ≤ limits_fileSize MAX_FILE_SIZE →
  uploadRoute JSON_parse path_extname path_join MAX_FILE_SIZE ctx req s
    = (Json 201 (BUploaded message pdf), s') →
  ∃ part disposition,
    upload_part req = Some part ∧
    getPdfFile {| pdfreq_id := pdf_id pdf;
                  pdfreq_user := Some (upload_user req) |} s'
    = (Stream "application/pdf" disposition (part_size part) (pdf_filePath pdf),
       s').
Proof.
  intros Hlimit Hout.
  destruct (uploadRoute_created_inv _ _ _ _ _ _ Hlimit Hout)
    as (part & isPublic & tags & Hpart & _ & _ & Hpdf & -> & _).
  exists part. eexists. split; [done|].
  assert (pdf_id pdf = newId ctx) as Hid by by rewrite Hpdf.
  rewrite (getPdfFile_outcome _ _ pdf); [|simpl; by rewrite Hid, lookup_insert_eq].
  cbn [pdfreq_user pdfreq_id].
  assert (hasAccess_file pdf (Some (upload_user req)) = true) as ->.
  { apply hasAccess_file_canView. right. exists (upload_user req).
    split; [done|]. by rewrite Hpdf. }
  rewrite bool_decide_true; [by rewrite Hpdf|].
  simpl. rewrite Hpdf. simpl. apply written_on_disk.
Qed.

End UploadComposition.

Lemma uploaded_document_metadata_witness :
  pdf_originalName sample_uploaded = "paper.pdf" ∧
  pdf_title sample_uploaded = trim "paper.pdf".
Proof.
  destruct (uploaded_document_metadata sample_JSON_parse sample_extname
              sample_join None sample_ctx (sample_upload 1024) empty_store
              _ _ _ default_limit_not_negative sample_upload_created)
    as (part & Hpart & Hname & _ & _ & Htitle & _).
  injection Hpart as <-. split; [exact Hname|]. apply Htitle. by left.
Defined.

Lemma uploaded_file_is_served_witness :
  ∃ disposition,
    getPdfFile {| pdfreq_id := "f00000000000000000000000"; pdfreq_user := Some alice |}
      (uploadRoute sample_JSON_parse sample_extname sample_join None
         sample_ctx (sample_upload 1024) empty_store).2
    = (Stream "application/pdf" disposition 1024 "uploads/pdfs/uuid-1.pdf",
       (uploadRoute sample_JSON_parse sample_extname sample_join None
          sample_ctx (sample_upload 1024) empty_store).2).
Proof.
  destruct (uploaded_file_is_served sample_JSON_parse sample_extname
              sample_join None sample_ctx (sample_upload 1024) empty_store
              _ _ _ default_limit_not_negative sample_upload_created)
    as (part & disposition & Hpart & Hserved).
  injection Hpart as <-. by exists disposition.
Defined.

Lemma createAnnotation_created_inv ctx req s message a s' :
  createAnnotation ctx req s = (Json 201 (BAnnotation message (Some a)), s') →
  s' = record (EvInsertAnnotation (ann_id a))
         (set_annotations <[ann_id a := a]> s) ∧
  annotations s !! ann_id a = None ∧
  ann_user a = user_id (create_user req).
Proof.
  unfold createAnnotation. run_handler.
  destruct (create_pdfId req) as [pdfId|], (create_page req) as [page|],
    (create_type req) as [type|], (create_content req) as [content|];
    simpl; try done.
  destruct ((pdfId =? "")%string || Qeq_bool page 0 || (type =? "")%string);
    [done|].
  destruct (pdfs s !! pdfId) as [D|]; simpl;
    [|by destruct (is_ObjectId pdfId)].
  destruct (hasAccess_annotate D (create_user req)); simpl; [|done].
  destruct (castBoolean (js_or (create_isPrivate req) (JBool false)));
    simpl; [|done].
  match goal with |- context [annotation_doc_valid ?x] =>
    destruct (annotation_doc_valid x) end; simpl; [|done].
  destruct (annotations s !! newId ctx) eqn:Hfresh; simpl; [done|].
  rewrite lookup_insert_eq. by intros [= <- <- <-].
Qed.

(** X25.  An annotation that was just created can be deleted by the one
    who created it, and the two requests together leave the stored
    annotations and documents exactly as they were. *)
Theorem create_then_delete ctx req s message a s1 :
  createAnnotation ctx req s = (Json 201 (BAnnotation message (Some a)), s1) →
  let del := deleteAnnotation
               {| annreq_user := create_user req; annreq_id := ann_id a |} s1 in
  del.1 = Json 200 (BMessage true "Annotation deleted successfully") ∧
  annotations del.2 = annotations s ∧
  pdfs del.2 = pdfs s.
Proof.
  intros Hc. apply createAnnotation_created_inv in Hc as (-> & Hfresh & Hauthor).
  simpl. rewrite (deleteAnnotation_outcome _ _ a);
    [|simpl; by rewrite lookup_insert_eq].
  cbn [annreq_user annreq_id].
  assert (not_owner_nor_admin (ann_user a) (create_user req) = false) as ->
    by (apply not_owner_nor_admin_false; by left).
  simpl. split; [done|]. split; [|done]. by apply delete_insert_id.
Qed.

Lemma create_then_delete_witness :
  annotations
    (deleteAnnotation {| annreq_user := bob; annreq_id := "f00000000000000000000000" |}
       (createAnnotation sample_ctx (note_request bob "d0c000000000000000000001" 1 "text")
          (sample_store true)).2).2
  = annotations (sample_store true).
Proof.
  destruct (create_then_delete sample_ctx (note_request bob "d0c000000000000000000001" 1 "text")
              (sample_store true) _ _ _ sample_note_created)
    as (_ & Hanns & _).
  exact Hanns.
Defined.

Lemma filter_fresh_reply (rs : list Reply) (r : Reply) :
  (∀ r', r' ∈ rs → reply_id r' ≠ reply_id r) →
  filter (λ r', reply_id r' ≠ reply_id r) (rs ++ [r]) = rs ∧
  replies_id (rs ++ [r]) (reply_id r) = Some r.
Proof.
  intros Hfresh. unfold replies_id. rewrite !filter_app. split.
  - rewrite (filter_none (λ r', reply_id r' ≠ reply_id r) [r]).
    + rewrite app_nil_r. induction rs as [|x rs IH]; [done|].
      rewrite filter_cons, decide_True by (apply Hfresh; left).
      f_equal. apply IH. intros r' Hr'. apply Hfresh. by right.
    + intros x Hx. apply list_elem_of_singleton in Hx as ->. by intros ?.
  - rewrite (filter_none (λ r', reply_id r' = reply_id r) rs).
    + simpl. by rewrite filter_cons, decide_True.
    + intros x Hx. by apply Hfresh.
Qed.

(** X26.  A reply that was just added can be deleted again by the one
    who wrote it, under the id it was given, provided no earlier reply of
    the annotation has that id: after the two requests the annotation has
    the replies it had before, in the same order. *)
Theorem reply_then_delete ctx ctx' req s a D text :
  annotations s !! replyreq_id req = Some a →
  ann_id a = replyreq_id req →
  annotation_doc_valid a = true →
  ann_isPrivate a = false →
  pdfs s !! ann_pdf a = Some D →
  pdf_user D = user_id (replyreq_user req) ∨ pdf_isPublic D = true →
  replyreq_text req = Some (JStr text) →
  trim text ≠ "" →
  str_len (trim text) ≤ 500 →
  (∀ r, r ∈ ann_replies a → reply_id r ≠ newId ctx) →
  let del := deleteReply ctx'
               {| delreply_user := replyreq_user req;
                  delreply_id := replyreq_id req;
                  delreply_replyId := newId ctx |}
               (addReply ctx req s).2 in
  del.1 = Json 200 (BMessage true "Reply deleted successfully") ∧
  ∃ a2, annotations del.2 !! replyreq_id req = Some a2 ∧
        ann_replies a2 = ann_replies a ∧
        ann_content a2 = ann_content a.
Proof.
  intros Ha Hid Hvalid Hpublic HD Hacc Htext Hblank Hlen Hfresh.
  destruct (addReply_accepted ctx req s a D text) as [-> Hv1]; try done.
  destruct (filter_fresh_reply (ann_replies a)
              (new_reply ctx (replyreq_user req) text) Hfresh) as [Hrest Hfound].
  simpl in Hrest, Hfound.
  unfold deleteReply, Annotation_saveReplies. run_handler.
  rewrite lookup_insert_eq. simpl. rewrite Hfound. simpl.
  assert (may_not_delete_reply (new_reply ctx (replyreq_user req) text)
            (with_replies ctx a
               (ann_replies a ++ [new_reply ctx (replyreq_user req) text]))
            (replyreq_user req) = false) as ->
    by (apply may_not_delete_reply_false; by left).
  simpl. unfold replies_remove. simpl. rewrite Hrest.
  assert (annotation_doc_valid
            (with_replies ctx'
               (with_replies ctx a
                  (ann_replies a ++ [new_reply ctx (replyreq_user req) text]))
               (ann_replies a)) = true) as ->.
  { unfold annotation_doc_valid in *. simpl in *. done. }
  simpl. split; [done|]. rewrite Hid. eexists.
  split; [by rewrite lookup_insert_eq|]. done.
Qed.

Lemma reply_then_delete_witness :
  let req := {| replyreq_user := alice; replyreq_id := "a00000000000000000000001";
                replyreq_text := Some (JStr "  agreed ") |} in
  ∃ a2,
    annotations
      (deleteReply sample_ctx
         {| delreply_user := alice; delreply_id := "a00000000000000000000001";
            delreply_replyId := "f00000000000000000000000" |}
         (addReply sample_ctx req (sample_store true)).2).2 !! "a00000000000000000000001" = Some a2 ∧
    ann_replies a2 =
      ann_replies (sample_annotation "a00000000000000000000001" "b0b000000000000000000002" false 1650000000000).
Proof.
  intros req.
  destruct (reply_then_delete sample_ctx sample_ctx req (sample_store true)
              (sample_annotation "a00000000000000000000001" "b0b000000000000000000002" false 1650000000000)
              (sample_pdf true) "  agreed ")
    as (_ & a2 & Hstored & Hreplies & _);
    [reflexivity | reflexivity | reflexivity | reflexivity | reflexivity
    | by left | reflexivity | discriminate | done | |].
  - intros r Hr. apply list_elem_of_singleton in Hr as ->. discriminate.
  - exists a2. split; [exact Hstored | exact Hreplies].
Defined.

(** ** Documents stay under their ids *)

Lemma updatePdf_wf ctx req s : store_wf s → store_wf (updatePdf ctx req s).2.
Proof.
  intros Hwf. unfold updatePdf, answer, PDF_findByIdAndUpdate.
  run_handler.
  destruct (pdfs s !! pdfupd_id req) as [D|] eqn:HD; simpl;
    [|by destruct (is_ObjectId (pdfupd_id req))].
  destruct (not_owner_nor_admin (pdf_user D) (pdfupd_user req)); simpl; [done|].
  destruct (cast_pdf_update (pdf_updateFields req))
    as [[[[title description] tags] isPublic]|]; simpl; [|done].
  match goal with |- context [negb ?v] => destruct v end; simpl; [|done].
  rewrite HD. simpl. apply wf_record, wf_insert_pdf; [simpl|done].
  by eapply wf_lookup_pdf.
Qed.

Lemma deleteReply_wf ctx req s : store_wf s → store_wf (deleteReply ctx req s).2.
Proof.
  intros Hwf. unfold deleteReply, Annotation_saveReplies. follow_branches.
Qed.

Lemma sample_store_wf isPublic : store_wf (sample_store isPublic).
Proof.
  split; simpl.
  - by apply map_Forall_singleton.
  - apply map_Forall_insert_2; [done|]. by apply map_Forall_singleton.
Qed.

(** X27.  Every route that writes keeps each collection keyed by the
    [_id] of its records: from a store where each document and each
    annotation is stored under its own id, the upload, the detail read,
    the update and the delete of a document, and the create, update and
    delete of an annotation and of a reply lead to such a store again. *)
Theorem routes_keep_ids s :
  store_wf s →
  (∀ JSON_parse path_extname path_join MAX_FILE_SIZE ctx req,
     store_wf (uploadRoute JSON_parse path_extname path_join MAX_FILE_SIZE
                 ctx req s).2) ∧
  (∀ ctx req, store_wf (getPdf ctx req s).2) ∧
  (∀ ctx req, store_wf (updatePdf ctx req s).2) ∧
  (∀ req, store_wf (deletePdf req s).2) ∧
  (∀ ctx req, store_wf (createAnnotation ctx req s).2) ∧
  (∀ ctx req, store_wf (updateAnnotation ctx req s).2) ∧
  (∀ req, store_wf (deleteAnnotation req s).2) ∧
  (∀ ctx req, store_wf (addReply ctx req s).2) ∧
  (∀ ctx req, store_wf (deleteReply ctx req s).2).
Proof.
  intros Hwf. split_and!; intros.
  - by apply uploadRoute_wf.
  - by apply getPdf_wf.
  - by apply updatePdf_wf.
  - by apply deletePdf_wf.
  - by apply createAnnotation_wf.
  - by apply updateAnnotation_wf.
  - by apply deleteAnnotation_wf.
  - by apply addReply_wf.
  - by apply deleteReply_wf.
Qed.

Lemma routes_keep_ids_witness :
  store_wf
    (createAnnotation sample_ctx (note_request bob "d0c000000000000000000001" 1 "text")
       (sample_store true)).2.
Proof.
  destruct (routes_keep_ids (sample_store true) (sample_store_wf true))
    as (_ & _ & _ & _ & Hcreate & _).
  apply Hcreate.
Defined.
